(** * Silence-detection lambda: a shallow embedding of [lambda_function.py]

    The development follows the source file top to bottom:
    - Python text as lists of code points, [str.splitlines];
    - the fragment of [re] that the three compiled patterns use, with
      Python's leftmost, greedy, backtracking search and named groups;
    - [float()] and [int()] on the captured groups, over IEEE binary64;
    - the scanning loop and the interval reconstruction of [has_audio];
    - the [s3_object] context manager and [lambda_handler], over a small
      state-and-exception monad whose state is the local [/tmp] directory. *)

From Stdlib Require Import ZArith NArith List Bool Ascii String Lia.
From Stdlib Require Import PrimFloat SpecFloat FloatOps.
From stdpp Require Import gmap strings.
Import ListNotations.

Local Open Scope Z_scope.

(** ** Text *)

(** A Python [str] is a sequence of Unicode code points. *)
Definition char : Type := N.
Definition text : Type := list char.

Definition cp (a : ascii) : char := N_of_ascii a.

(** The code points of an ASCII literal of the source. *)
Definition str (s : string) : text := map cp (list_ascii_of_string s).

Definition char_eqb (a b : char) : bool := N.eqb a b.

Fixpoint text_eqb (a b : text) : bool :=
  match a, b with
  | [], [] => true
  | x :: a', y :: b' => char_eqb x y && text_eqb a' b'
  | _, _ => false
  end.

Definition LF : char := 10%N.
Definition CR : char := 13%N.

(** The line boundaries of [str.splitlines]: LF, VT, FF, CR, FS, GS, RS,
    NEL, LINE SEPARATOR and PARAGRAPH SEPARATOR. *)
Definition is_linebreak (c : char) : bool :=
  existsb (char_eqb c)
    [10; 11; 12; 13; 28; 29; 30; 133; 8232; 8233]%N.

(** [splitlines_from cur s]: [cur] is the current line, reversed.  A CR
    directly followed by LF is one boundary; no empty line is produced
    after the last boundary. *)
Fixpoint splitlines_from (cur : text) (s : text) : list text :=
  match s with
  | [] => match cur with [] => [] | _ => [rev cur] end
  | c :: s' =>
      if is_linebreak c then
        rev cur ::
          match s' with
          | c2 :: s'' =>
              if char_eqb c CR && char_eqb c2 LF
              then splitlines_from [] s''
              else splitlines_from [] s'
          | [] => splitlines_from [] s'
          end
      else splitlines_from (c :: cur) s'
  end.

Definition splitlines (s : text) : list text := splitlines_from [] s.

(** ** Regular expressions

    The three patterns are sequences of literal characters, greedy
    repetitions of a character class, named groups and [$].  A pattern is
    kept as the list of its items, in the order of the source string. *)

Inductive item : Type :=
| Chr (c : char)                                   (* a literal character *)
| Rep (cls : char -> bool) (lo : nat) (hi : option nat)
                                                   (* cls{lo,hi}, greedy *)
| GOpen (name : string)                            (* (?P<name> *)
| GClose (name : string)                           (* ) *)
| Eol.                                             (* $ *)

Definition regex : Type := list item.

Definition lit (s : string) : regex := map Chr (str s).

(** Character classes of the source patterns. *)
Definition is_digit (c : char) : bool := (48 <=? c)%N && (c <=? 57)%N.
Definition is_dot (c : char) : bool := char_eqb c 46%N.
Definition is_digit_or_dot (c : char) : bool := is_digit c || is_dot c.
Definition not_space (c : char) : bool := negb (char_eqb c 32%N).

(** The groups of a match: name and captured text. *)
Definition groups : Type := list (string * text).

Fixpoint assoc {A} (k : string) (l : list (string * A)) : option A :=
  match l with
  | [] => None
  | (k', v) :: l' => if String.eqb k k' then Some v else assoc k l'
  end.

(** Length of the longest prefix of [s] inside [cls]. *)
Fixpoint run (cls : char -> bool) (s : text) : nat :=
  match s with
  | c :: s' => if cls c then S (run cls s') else O
  | [] => O
  end.

Definition cap (hi : option nat) (n : nat) : nat :=
  match hi with
  | Some h => Nat.min h n
  | None => n
  end.

(** Greedy choice with backtracking: the counts [k], [k-1], ..., [lo] are
    tried in this order and the first that lets the rest match wins. *)
Fixpoint backtrack {A} (lo k : nat) (f : nat -> option A) : option A :=
  if (k <? lo)%nat then None
  else
    match f k with
    | Some r => Some r
    | None =>
        match k with
        | O => None
        | S k' => backtrack lo k' f
        end
    end.

(** [match_here re s opened closed]: match [re] at the beginning of [s].
    [opened] remembers the input at each group's opening parenthesis. *)
Fixpoint match_here (re : regex) (s : text) (opened closed : groups)
  : option groups :=
  match re with
  | [] => Some closed
  | Chr c :: re' =>
      match s with
      | c' :: s' => if char_eqb c c' then match_here re' s' opened closed else None
      | [] => None
      end
  | Rep cls lo hi :: re' =>
      backtrack lo (cap hi (run cls s))
        (fun k => match_here re' (skipn k s) opened closed)
  | GOpen g :: re' => match_here re' s ((g, s) :: opened) closed
  | GClose g :: re' =>
      match assoc g opened with
      | Some o =>
          match_here re' s opened
            ((g, firstn (length o - length s) o) :: closed)
      | None => None
      end
  | Eol :: re' =>
      (* end of the string, or just before a newline that ends it *)
      match s with
      | [] => match_here re' s opened closed
      | [c] => if char_eqb c LF then match_here re' s opened closed else None
      | _ => None
      end
  end.

(** [Pattern.search]: the leftmost position at which the pattern matches. *)
Fixpoint search (re : regex) (s : text) : option groups :=
  match match_here re s [] [] with
  | Some m => Some m
  | None =>
      match s with
      | [] => None
      | _ :: s' => search re s'
      end
  end.

(** [Match.group(name)] *)
Definition group (m : groups) (name : string) : option text := assoc name m.

(** SILENCE_START_RE: the literal ' silence_start: ', then the group
    'start' = one or more digits, an optional dot, zero or more digits,
    then the end of the line.  The inner, unnamed group of the source
    pattern is never read and is not recorded. *)
Definition SILENCE_START_RE : regex :=
  lit " silence_start: "
  ++ [GOpen "start"; Rep is_digit 1 None;
      Rep is_dot 0 (Some 1%nat); Rep is_digit 0 None;
      GClose "start"; Eol].

(** SILENCE_END_RE: the literal ' silence_end: ', then the group 'end' of
    the same shape, then one space. *)
Definition SILENCE_END_RE : regex :=
  lit " silence_end: "
  ++ [GOpen "end"; Rep is_digit 1 None;
      Rep is_dot 0 (Some 1%nat); Rep is_digit 0 None;
      GClose "end"]
  ++ lit " ".

(** TOTAL_DURATION_RE: 'size=', one or more characters other than a
    space, ' time=', two digits (hours), ':', two digits (minutes), ':',
    five characters among the digits and the dot (seconds), ' bitrate='. *)
Definition TOTAL_DURATION_RE : regex :=
  lit "size=" ++ [Rep not_space 1 None] ++ lit " time="
  ++ [GOpen "hours"; Rep is_digit 2 (Some 2%nat); GClose "hours"]
  ++ lit ":"
  ++ [GOpen "minutes"; Rep is_digit 2 (Some 2%nat); GClose "minutes"]
  ++ lit ":"
  ++ [GOpen "seconds"; Rep is_digit_or_dot 5 (Some 5%nat); GClose "seconds"]
  ++ lit " bitrate=".

(** ** Exceptions *)

(** A raised exception: what [type(e)] prints as and [str(e)]. *)
Record exn : Type := Exn { exn_type : string; exn_msg : text }.

Inductive result (A : Type) : Type :=
| Ok (a : A)
| Raise (e : exn).
Arguments Ok {A} a.
Arguments Raise {A} e.

#[global] Instance result_ret : MRet result := fun _ a => Ok a.
#[global] Instance result_bind : MBind result := fun _ _ f r =>
  match r with
  | Ok a => f a
  | Raise e => Raise e
  end.

Definition ValueError (msg : text) : exn := Exn "<class 'ValueError'>" msg.
Definition IndexError (msg : text) : exn := Exn "<class 'IndexError'>" msg.

(** ** Numbers *)

Definition digit_val (c : char) : Z := Z.of_N c - 48.

Definition digits_val (s : text) : Z :=
  fold_left (fun acc c => 10 * acc + digit_val c) s 0.

(** The binary64 number nearest to [n / d] (ties to even), for [n >= 0] and
    [d > 0]: the value [float()] gives a decimal numeral. *)
Definition float_of_ratio (n d : Z) : float :=
  match n, d with
  | Zpos pn, Zpos pd =>
      SF2Prim (SFdiv prec emax (S754_finite false pn 0) (S754_finite false pd 0))
  | _, _ => PrimFloat.zero
  end.

(** Conversion of a Python [int] operand of a mixed [int + float] sum. *)
Definition float_of_Z (z : Z) : float :=
  SF2Prim (binary_normalize prec emax z 0 false).

Definition nonempty (s : text) : bool :=
  match s with [] => false | _ => true end.

(** [float(s)] for a text of digits and dots, which is all the patterns can
    capture: digits, an optional dot, digits, with a digit somewhere.
    Python's [float] also reads signs, exponents, blanks, underscores, inf
    and nan; no group of the three patterns can hold any of them. *)
Definition parse_float (s : text) : option float :=
  let ip := firstn (run is_digit s) s in
  match skipn (run is_digit s) s with
  | [] =>
      if nonempty ip then Some (float_of_ratio (digits_val ip) 1) else None
  | c :: fp =>
      if is_dot c && forallb is_digit fp && (nonempty ip || nonempty fp)
      then Some (float_of_ratio (digits_val (ip ++ fp)) (10 ^ Z.of_nat (length fp)))
      else None
  end.

Definition py_float (s : text) : result float :=
  match parse_float s with
  | Some x => Ok x
  | None =>
      Raise (ValueError (str "could not convert string to float: '" ++ s ++ str "'"))
  end.

(** [int(s)] for a text of digits. *)
Definition py_int (s : text) : result Z :=
  if nonempty s && forallb is_digit s then Ok (digits_val s)
  else
    Raise (ValueError (str "invalid literal for int() with base 10: '" ++ s ++ str "'")).

(** Truth value of a float: false exactly for zero (of either sign). *)
Definition truthy (x : float) : bool := negb (PrimFloat.eqb x 0%float).

(** [x or d] where [x] is [None] or a float. *)
Definition or_else (x : option float) (d : float) : float :=
  match x with
  | Some v => if truthy v then v else d
  | None => d
  end.

(** ** The diagnostic parser: the body of [has_audio] after the tool call *)

Definition py_group (m : groups) (name : string) : result text :=
  match group m name with
  | Some t => Ok t
  | None => Raise (IndexError (str "no such group"))
  end.

(** The variables the loop updates. *)
Record scan : Type := Scan {
  chunk_starts : list float;
  chunk_ends : list float;
  end_time : option float
}.

Definition start_time : float := 0%float.

Definition scan0 : scan := Scan [] [] None.

(** One iteration of [for line in output.splitlines()]. *)
Definition step (st : scan) (line : text) : result scan :=
  let silence_start_match := search SILENCE_START_RE line in
  let silence_end_match := search SILENCE_END_RE line in
  let total_duration_match := search TOTAL_DURATION_RE line in
  match silence_start_match with
  | Some m =>
      g ← py_group m "start";
      t ← py_float g;
      let ends := chunk_ends st ++ [t] in
      let starts :=
        if (length (chunk_starts st) =? 0)%nat
        then chunk_starts st ++ [or_else (Some start_time) 0%float]
        else chunk_starts st in
      Ok (Scan starts ends (end_time st))
  | None =>
      match silence_end_match with
      | Some m =>
          g ← py_group m "end";
          t ← py_float g;
          Ok (Scan (chunk_starts st ++ [t]) (chunk_ends st) (end_time st))
      | None =>
          match total_duration_match with
          | Some m =>
              gh ← py_group m "hours";
              hours ← py_int gh;
              gm ← py_group m "minutes";
              minutes ← py_int gm;
              gs ← py_group m "seconds";
              seconds ← py_float gs;
              Ok (Scan (chunk_starts st) (chunk_ends st)
                    (Some (float_of_Z (hours * 3600 + minutes * 60) + seconds)%float))
          | None => Ok st
          end
      end
  end.

Fixpoint scan_lines (st : scan) (lines : list text) : result scan :=
  match lines with
  | [] => Ok st
  | line :: rest => st' ← step st line; scan_lines st' rest
  end.

(** The two lists and the flag as they stand at the [return] statement. *)
Definition close_chunks (st : scan) : list float * list float * bool :=
  let starts :=
    if (length (chunk_starts st) =? 0)%nat
    then chunk_starts st ++ [start_time]      (* No silence found. *)
    else chunk_starts st in
  let ends := chunk_ends st in
  if (length ends <? length starts)%nat && (0 <? length ends)%nat
  then (starts, ends ++ [or_else (end_time st) 10000000%float], true)
  else (starts, ends, false).

(** [list(zip(chunk_starts, chunk_ends)), noise_detected] *)
Definition finish (st : scan) : list (float * float) * bool :=
  let '(starts, ends, noise_detected) := close_chunks st in
  (combine starts ends, noise_detected).

Definition parse (output : text) : result (list (float * float) * bool) :=
  st ← scan_lines scan0 (splitlines output);
  Ok (finish st).

(** ** The orchestrator *)

(** Values of the request and of the response. *)
#[warnings="-register-all"]
Inductive pyval : Type :=
| PyNone
| PyBool (b : bool)
| PyInt (z : Z)
| PyFloat (x : float)
| PyStr (s : text)
| PyList (xs : list pyval)
| PyDict (kvs : list (text * pyval)).

Definition KeyError (msg : text) : exn := Exn "<class 'KeyError'>" msg.
Definition TypeError (msg : text) : exn := Exn "<class 'TypeError'>" msg.
Definition AttributeError (msg : text) : exn := Exn "<class 'AttributeError'>" msg.
Definition FileNotFoundError (msg : text) : exn :=
  Exn "<class 'FileNotFoundError'>" msg.
Definition FFmpegError (msg : text) : exn :=
  Exn "<class 'lambda_function.FFmpegError'>" msg.

Fixpoint dict_get (k : text) (kvs : list (text * pyval)) : option pyval :=
  match kvs with
  | [] => None
  | (k', v) :: kvs' => if text_eqb k k' then Some v else dict_get k kvs'
  end.

(** [type(v).__name__] *)
Definition type_name (v : pyval) : string :=
  match v with
  | PyNone => "NoneType"
  | PyBool _ => "bool"
  | PyInt _ => "int"
  | PyFloat _ => "float"
  | PyStr _ => "str"
  | PyList _ => "list"
  | PyDict _ => "dict"
  end.

(** [v[key]] for a string key.  The message for a string subject is the
    one of Python up to 3.10; later versions append the type of the key. *)
Definition subscript (v : pyval) (key : text) : result pyval :=
  match v with
  | PyDict kvs =>
      match dict_get key kvs with
      | Some x => Ok x
      | None => Raise (KeyError (str "'" ++ key ++ str "'"))
      end
  | PyStr _ => Raise (TypeError (str "string indices must be integers"))
  | PyList _ => Raise (TypeError (str "list indices must be integers or slices, not str"))
  | _ =>
      Raise (TypeError (str "'" ++ str (type_name v)
                        ++ str "' object is not subscriptable"))
  end.

(** The external collaborators: object storage and the detection tool.
    [s3_download bucket key file] is [None] when the object has been
    written to [file], and the exception of [boto3] otherwise.
    [ffmpeg file duration tolerance] is the exit status of the process and
    its decoded diagnostic stream, or the exception of starting it or of
    decoding. *)
Record env : Type := Env {
  s3_download : pyval -> text -> text -> option exn;
  ffmpeg : text -> pyval -> pyval -> result (Z * text)
}.

(** Computations over the local temporary directory: the set of the file
    names present in it. *)
Definition M (A : Type) : Type := gset text -> result A * gset text.

#[global] Instance M_ret : MRet M := fun _ a fs => (Ok a, fs).
#[global] Instance M_bind : MBind M := fun _ _ f m fs =>
  match m fs with
  | (Ok a, fs') => f a fs'
  | (Raise e, fs') => (Raise e, fs')
  end.

Definition raise {A} (e : exn) : M A := fun fs => (Raise e, fs).

Definition lift {A} (r : result A) : M A := fun fs => (r, fs).

(** [try: body except Exception as e: handler] *)
Definition try_except {A} (body : M A) (handler : exn -> M A) : M A := fun fs =>
  match body fs with
  | (Ok a, fs') => (Ok a, fs')
  | (Raise e, fs') => handler e fs'
  end.

(** [os.remove].  The message of the missing-file case quotes the name as
    [repr] does for a name without quote, backslash or unprintable
    character. *)
Definition os_remove (file_name : text) : M unit := fun fs =>
  if decide (file_name ∈ fs)
  then (Ok tt, fs ∖ {[file_name]})
  else
    (Raise (FileNotFoundError
              (str "[Errno 2] No such file or directory: '" ++ file_name ++ str "'")),
     fs).

(** [detect_silence]: a non-zero exit status raises.  ([logging.error] is
    not part of the state.) *)
Definition detect_silence (w : env) (input_file : text)
    (noise_tolerance noise_duration : pyval) : M text :=
  '(returncode, output) ← lift (ffmpeg w input_file noise_duration noise_tolerance);
  if negb (returncode =? 0)
  then raise (FFmpegError (str "FFMPEG Error. Check logs"))
  else mret output.

Definition has_audio (w : env) (input_file : text)
    (noise_tolerance noise_duration : pyval) : M (list (float * float) * bool) :=
  output ← detect_silence w input_file noise_tolerance noise_duration;
  lift (parse output).

(** [key_name.split('/')[-1]]: what follows the last slash. *)
Fixpoint last_segment (cur : text) (s : text) : text :=
  match s with
  | [] => rev cur
  | c :: s' => if char_eqb c 47%N then last_segment [] s' else last_segment (c :: cur) s'
  end.

(** A generator function under [@contextmanager] with one [yield] that is
    not inside a [try]: the code before the [yield], which produces the
    yielded value, and the code after it. *)
Record generator (A : Type) : Type := Generator {
  before_yield : M A;
  after_yield : A -> M unit
}.
Arguments Generator {A} _ _.
Arguments before_yield {A} _.
Arguments after_yield {A} _.

(** [with g as x: body].  When the body raises, the exception is thrown
    into the generator at its [yield]; no handler encloses the [yield], so
    the generator ends there, the code after the [yield] does not run, and
    the exception goes on. *)
Definition with_ {A B} (g : generator A) (body : A -> M B) : M B := fun fs =>
  match before_yield g fs with
  | (Raise e, fs1) => (Raise e, fs1)
  | (Ok x, fs1) =>
      match body x fs1 with
      | (Raise e, fs2) => (Raise e, fs2)
      | (Ok b, fs2) =>
          match after_yield g x fs2 with
          | (Ok _, fs3) => (Ok b, fs3)
          | (Raise e, fs3) => (Raise e, fs3)
          end
      end
  end.

Definition tmp_name (key_name : text) : text :=
  str "/tmp/" ++ last_segment [] key_name.

Definition s3_object (w : env) (bucket_name key_name : pyval) : generator text :=
  Generator
    (match key_name with
     | PyStr key =>
         let file_name := tmp_name key in
         fun fs =>
           match s3_download w bucket_name key file_name with
           | None => (Ok file_name, {[file_name]} ∪ fs)
           | Some e => (Raise e, fs)
           end
     | _ =>
         raise (AttributeError (str "'" ++ str (type_name key_name)
                                ++ str "' object has no attribute 'split'"))
     end)
    (fun file_name => os_remove file_name).

Record response : Type := Response {
  statusCode : Z;
  data : gmap string pyval
}.

Definition resp0 : gmap string pyval :=
  <["success" := PyBool false]>
    (<["noise_detected" := PyBool false]> (<["errors" := PyNone]> ∅)).

(** [f"{type(e)}: {str(e)}"] *)
Definition describe (e : exn) : text :=
  str (exn_type e) ++ str ": " ++ exn_msg e.

(** The body of the [try] block; it yields [noise_detected]. *)
Definition handler_body (w : env) (event : pyval) : M bool :=
  body ← lift (subscript event (str "body"));
  bucket_name ← lift (subscript body (str "bucket_name"));
  body ← lift (subscript event (str "body"));
  key_name ← lift (subscript body (str "key_name"));
  body ← lift (subscript event (str "body"));
  noise_tolerance ← lift (subscript body (str "noise_tolerance"));
  body ← lift (subscript event (str "body"));
  noise_duration ← lift (subscript body (str "noise_duration"));
  with_ (s3_object w bucket_name key_name) (fun input_file =>
    '(_, noise_detected) ← has_audio w input_file noise_tolerance noise_duration;
    mret noise_detected).

(** [lambda_handler(event, context)]; [context] is never read.  [resp] is
    only written after the [with] statement, so the handler of the
    [except] clause sees it as it was initialised. *)
Definition lambda_handler (w : env) (event : pyval) : M response :=
  let resp := resp0 in
  resp ← try_except
    (noise_detected ← handler_body w event;
     let resp := <["noise_detected" := PyBool noise_detected]> resp in
     let resp := <["success" := PyBool true]> resp in
     mret resp)
    (fun e => mret (<["error" := PyStr (describe e)]> resp));
  mret (Response 200 resp).

(** ** The line kinds of the data model

    [DiagnosticLine] of the specification: what the [if]/[elif] chain of
    the loop decides for a line, and what each kind does to the two lists
    and to the file duration. *)

Inductive kind : Type :=
| SilenceStart (t : float)
| SilenceEnd (t : float)
| TotalDurationMarker (hours minutes : Z) (seconds : float)
| Unrecognized.

Definition classify (line : text) : result kind :=
  match search SILENCE_START_RE line with
  | Some m => g ← py_group m "start"; t ← py_float g; Ok (SilenceStart t)
  | None =>
      match search SILENCE_END_RE line with
      | Some m => g ← py_group m "end"; t ← py_float g; Ok (SilenceEnd t)
      | None =>
          match search TOTAL_DURATION_RE line with
          | Some m =>
              gh ← py_group m "hours";
              hours ← py_int gh;
              gm ← py_group m "minutes";
              minutes ← py_int gm;
              gs ← py_group m "seconds";
              seconds ← py_float gs;
              Ok (TotalDurationMarker hours minutes seconds)
          | None => Ok Unrecognized
          end
      end
  end.

(** total seconds = hours * 3600 + minutes * 60 + seconds, in the
    arithmetic of the program: an exact integer sum, then one binary64
    addition. *)
Definition total_seconds (hours minutes : Z) (seconds : float) : float :=
  (float_of_Z (hours * 3600 + minutes * 60) + seconds)%float.

(** Steps 3 to 5 of the algorithm of the specification. *)
Definition apply_kind (st : scan) (k : kind) : scan :=
  match k with
  | SilenceStart t =>
      Scan (match chunk_starts st with [] => [0%float] | _ => chunk_starts st end)
           (chunk_ends st ++ [t]) (end_time st)
  | SilenceEnd t => Scan (chunk_starts st ++ [t]) (chunk_ends st) (end_time st)
  | TotalDurationMarker h m s =>
      Scan (chunk_starts st) (chunk_ends st) (Some (total_seconds h m s))
  | Unrecognized => st
  end.

(** The duration carried by the last total-duration line, if any. *)
Fixpoint last_duration (lines : list text) : option float :=
  match lines with
  | [] => None
  | line :: rest =>
      match last_duration rest with
      | Some d => Some d
      | None =>
          match classify line with
          | Ok (TotalDurationMarker h m s) => Some (total_seconds h m s)
          | _ => None
          end
      end
  end.

(** An unsigned decimal, optionally with a fractional part: digits, then
    possibly a dot and further digits. *)
Definition is_number (t : text) : bool :=
  nonempty (firstn (run is_digit t) t)
  && match skipn (run is_digit t) t with
     | [] => true
     | c :: fp => is_dot c && forallb is_digit fp
     end.

(** A line that reaches the duration branch with a seconds field that
    [float()] rejects. *)
Definition malformed_duration (line : text) : bool :=
  match search SILENCE_START_RE line, search SILENCE_END_RE line,
        search TOTAL_DURATION_RE line with
  | None, None, Some m =>
      match group m "seconds" with
      | Some s => match parse_float s with Some _ => false | None => true end
      | None => false
      end
  | _, _, _ => false
  end.

(** The starts list after the fallback for an empty list. *)
Definition seeded_starts (st : scan) : list float :=
  (close_chunks st).1.1.

(** ** Auxiliary notions of the statements *)

(** An end is only ever recorded once a start is: the starts list is empty
    only while the ends list is. *)
Definition starts_before_ends (st : scan) : Prop :=
  chunk_starts st = [] -> chunk_ends st = [].

(** Number of dots of a text. *)
Definition dots (t : text) : nat := length (List.filter is_dot t).

(** A text without any of the line boundaries of [str.splitlines]. *)
Definition no_linebreak (t : text) : bool :=
  forallb (fun c => negb (is_linebreak c)) t.

(** The times of the silence-start lines, in line order. *)
Fixpoint silence_start_times (lines : list text) : list float :=
  match lines with
  | [] => []
  | line :: rest =>
      match classify line with
      | Ok (SilenceStart t) => t :: silence_start_times rest
      | _ => silence_start_times rest
      end
  end.

(** The times of the silence-end lines, in line order. *)
Fixpoint silence_end_times (lines : list text) : list float :=
  match lines with
  | [] => []
  | line :: rest =>
      match classify line with
      | Ok (SilenceEnd t) => t :: silence_end_times rest
      | _ => silence_end_times rest
      end
  end.

(** Whether the first silence event of the lines is a silence start. *)
Fixpoint leading_start (lines : list text) : bool :=
  match lines with
  | [] => false
  | line :: rest =>
      match classify line with
      | Ok (SilenceStart _) => true
      | Ok (SilenceEnd _) => false
      | _ => leading_start rest
      end
  end.

(** The four fields the handler reads from the request before the [with]
    statement, in the order of the source. *)
Definition request_fields (event : pyval) : result (pyval * pyval * pyval * pyval) :=
  body ← subscript event (str "body");
  bucket_name ← subscript body (str "bucket_name");
  body ← subscript event (str "body");
  key_name ← subscript body (str "key_name");
  body ← subscript event (str "body");
  noise_tolerance ← subscript body (str "noise_tolerance");
  body ← subscript event (str "body");
  noise_duration ← subscript body (str "noise_duration");
  Ok (bucket_name, key_name, noise_tolerance, noise_duration).

(** The responses of the handler. *)
Definition error_response (e : exn) : response :=
  Response 200 (<["error" := PyStr (describe e)]> resp0).

Definition success_response (noise_detected : bool) : response :=
  Response 200
    (<["success" := PyBool true]>
       (<["noise_detected" := PyBool noise_detected]> resp0)).

(** ** Sample diagnostic texts and requests *)

Definition NL : text := [LF].

Definition open_chunk_text (time : string) : text :=
  str "[silencedetect @ 0x5581] silence_start: 1" ++ NL
  ++ str "[silencedetect @ 0x5581] silence_end: 2 | silence_duration: 1" ++ NL
  ++ str "size=N/A time=" ++ str time ++ str " bitrate=N/A speed= 920x".

Definition three_ends_one_start : text :=
  str "[silencedetect @ 0x5581] silence_end: 1 | silence_duration: 1" ++ NL
  ++ str "[silencedetect @ 0x5581] silence_end: 2 | silence_duration: 0.5" ++ NL
  ++ str "[silencedetect @ 0x5581] silence_end: 3 | silence_duration: 0.5" ++ NL
  ++ str "[silencedetect @ 0x5581] silence_start: 4".

Definition three_silence_ends : text :=
  str "[silencedetect @ 0x5581] silence_end: 1 | silence_duration: 1" ++ NL
  ++ str "[silencedetect @ 0x5581] silence_end: 2 | silence_duration: 0.5" ++ NL
  ++ str "size=N/A time=00:00:05.12 bitrate=N/A speed= 900x".

Definition two_durations : list text :=
  [str "size=N/A time=00:00:05.12 bitrate=N/A speed= 900x";
   str "[silencedetect @ 0x5581] silence_end: 2 | silence_duration: 2";
   str "frame=1 size=22kB time=01:02:03.50 bitrate=N/A speed= 920x";
   str "video:0kB audio:172kB subtitle:0kB"].

(** A well-formed request. *)
Definition request (bucket_name : pyval) (key_name : text)
    (noise_tolerance noise_duration : pyval) : pyval :=
  PyDict [(str "body",
           PyDict [(str "bucket_name", bucket_name);
                   (str "key_name", PyStr key_name);
                   (str "noise_tolerance", noise_tolerance);
                   (str "noise_duration", noise_duration)])].

(** Storage delivers the object; the tool exits with status 1. *)
Definition failing_tool : env :=
  Env (fun _ _ _ => None)
      (fun _ _ _ => Ok (1, str "clip.mp4: Invalid data found when processing input")).

(** Storage delivers the object; the tool reports one silence that ends. *)
Definition working_tool : env :=
  Env (fun _ _ _ => None)
      (fun _ _ _ => Ok (0, open_chunk_text "00:01:10.50")).

(** Storage refuses the object. *)
Definition no_such_key : env :=
  Env (fun _ _ _ => Some (Exn "<class 'botocore.exceptions.ClientError'>"
                            (str "An error occurred (404) when calling the HeadObject operation: Not Found")))
      (fun _ _ _ => Ok (0, open_chunk_text "00:01:10.50")).

(** Storage delivers the object; the tool prints a malformed duration. *)
Definition garbled_tool : env :=
  Env (fun _ _ _ => None)
      (fun _ _ _ => Ok (0, open_chunk_text "00:00:1.2.3")).

Definition clip_request : pyval :=
  request (PyStr (str "media")) (str "uploads/clip.mp4") (PyInt (-36)) (PyFloat 0.5%float).

(** * Properties *)

(** ** The matcher *)

Lemma char_eqb_refl c : char_eqb c c = true.
Proof. apply N.eqb_refl. Qed.

Lemma char_eqb_eq a b : char_eqb a b = true -> a = b.
Proof. apply N.eqb_eq. Qed.

Lemma backtrack_first {A} lo k (f : nat -> option A) r :
  (lo <= k)%nat -> f k = Some r -> backtrack lo k f = Some r.
Proof.
  intros Hle Hf. destruct k; simpl.
  - destruct lo; [|lia]. simpl. now rewrite Hf.
  - destruct (Nat.ltb_spec (S k) lo); [lia|]. now rewrite Hf.
Qed.

Lemma backtrack_Some {A} lo k (f : nat -> option A) r :
  backtrack lo k f = Some r -> exists j, (lo <= j <= k)%nat /\ f j = Some r.
Proof.
  induction k as [|k IH]; simpl.
  - destruct (Nat.ltb_spec 0 lo); [discriminate|].
    destruct (f 0%nat) eqn:E; [|discriminate].
    intros [= <-]. exists 0%nat. split; [lia|assumption].
  - destruct (Nat.ltb_spec (S k) lo); [discriminate|].
    destruct (f (S k)) eqn:E.
    + intros [= <-]. exists (S k). split; [lia|assumption].
    + intros Hb. destruct (IH Hb) as (j & Hj & Hfj).
      exists j. split; [lia|assumption].
Qed.

Lemma run_firstn cls s k :
  (k <= run cls s)%nat -> forallb cls (firstn k s) = true /\ length (firstn k s) = k.
Proof.
  revert k. induction s as [|c s IH]; intros k Hk; simpl in Hk.
  - assert (k = 0%nat) as -> by lia. now simpl.
  - destruct k; [now simpl|].
    destruct (cls c) eqn:Hc; [|lia].
    destruct (IH k ltac:(lia)) as [H1 H2].
    simpl. rewrite Hc, H1, H2. auto.
Qed.

Lemma run_all cls a r :
  forallb cls a = true -> run cls (a ++ r) = (length a + run cls r)%nat.
Proof.
  induction a as [|c a IH]; simpl; [reflexivity|].
  intros H. apply andb_prop in H as [Hc Ha]. rewrite Hc, IH; auto.
Qed.

Lemma cap_le hi n : (cap hi n <= n)%nat.
Proof. destruct hi; simpl; lia. Qed.

Lemma cap_hi h n : (cap (Some h) n <= h)%nat.
Proof. simpl. lia. Qed.

(** A literal prefix of a pattern consumes exactly that text. *)
Lemma match_here_lit_app l re s o c :
  match_here (map Chr l ++ re) (l ++ s) o c = match_here re s o c.
Proof.
  induction l as [|x l IH]; simpl; [reflexivity|].
  now rewrite char_eqb_refl.
Qed.

Lemma match_here_lit_inv l re s o c m :
  match_here (map Chr l ++ re) s o c = Some m ->
  exists s', s = l ++ s' /\ match_here re s' o c = Some m.
Proof.
  revert s. induction l as [|x l IH]; intros s; simpl.
  - intros H. now exists s.
  - destruct s as [|y s]; [discriminate|].
    destruct (char_eqb x y) eqn:E; [|discriminate].
    apply char_eqb_eq in E as <-.
    intros H. destruct (IH _ H) as (s' & -> & H').
    now exists s'.
Qed.

(** A repetition consumes a run of its class, within its bounds. *)
Lemma match_here_Rep_inv cls lo hi re s o c m :
  match_here (Rep cls lo hi :: re) s o c = Some m ->
  exists a s', s = a ++ s' /\ forallb cls a = true /\ (lo <= length a)%nat /\
    (forall h, hi = Some h -> (length a <= h)%nat) /\
    match_here re s' o c = Some m.
Proof.
  simpl. intros H. apply backtrack_Some in H as (j & Hj & Hm).
  assert (j <= run cls s)%nat as Hrun by (pose proof (cap_le hi (run cls s)); lia).
  destruct (run_firstn cls s j Hrun) as [Hall Hlen].
  exists (firstn j s), (skipn j s).
  rewrite firstn_skipn, Hlen. repeat split; auto; try lia.
  intros h ->. pose proof (cap_hi h (run cls s)). lia.
Qed.

Lemma search_inv re s m :
  search re s = Some m ->
  exists pre s', s = pre ++ s' /\ match_here re s' [] [] = Some m.
Proof.
  induction s as [|x s IH]; simpl.
  - destruct (match_here re [] [] []) eqn:E; [|discriminate].
    intros [= <-]. now exists [], [].
  - destruct (match_here re (x :: s) [] []) eqn:E.
    + intros [= <-]. now exists [], (x :: s).
    + intros H. destruct (IH H) as (pre & s' & -> & H').
      now exists (x :: pre), s'.
Qed.

Lemma search_here re s m : match_here re s [] [] = Some m -> search re s = Some m.
Proof. intros H. destruct s; simpl; now rewrite H. Qed.

Lemma search_skip re x s :
  match_here re (x :: s) [] [] = None -> search re (x :: s) = search re s.
Proof. intros H. simpl. now rewrite H. Qed.

Lemma match_here_GOpen g re s o c :
  match_here (GOpen g :: re) s o c = match_here re s ((g, s) :: o) c.
Proof. reflexivity. Qed.

Lemma match_here_GClose g re s t o c :
  match_here (GClose g :: re) s ((g, t) :: o) c
  = match_here re s ((g, t) :: o) ((g, firstn (length t - length s) t) :: c).
Proof. simpl. now rewrite String.eqb_refl. Qed.

Lemma run_forall cls a : forallb cls a = true -> run cls a = length a.
Proof.
  intros H. rewrite <- (app_nil_r a) at 1. rewrite run_all by assumption.
  simpl. lia.
Qed.

Lemma firstn_prefix {A} (a b : list A) :
  firstn (length (a ++ b) - length b) (a ++ b) = a.
Proof.
  rewrite length_app.
  replace (length a + length b - length b)%nat with (length a + 0)%nat by lia.
  rewrite firstn_app_2. simpl. apply app_nil_r.
Qed.

Lemma is_dot_not_digit x : is_dot x = true -> is_digit x = false.
Proof. intros H. apply char_eqb_eq in H as ->. reflexivity. Qed.

(** The shape the two silence patterns capture is a number. *)
Lemma number_shape a b d :
  forallb is_digit a = true -> (1 <= length a)%nat ->
  forallb is_dot b = true -> (length b <= 1)%nat ->
  forallb is_digit d = true ->
  is_number (a ++ b ++ d) = true.
Proof.
  intros Ha Hla Hb Hlb Hd. unfold is_number.
  destruct b as [|x b].
  - simpl app. assert (forallb is_digit (a ++ d) = true) as Had
      by (rewrite forallb_app, Ha, Hd; reflexivity).
    rewrite (run_forall _ _ Had), firstn_all, skipn_all.
    destruct a; [simpl in Hla; lia|reflexivity].
  - destruct b; [|simpl in Hlb; lia].
    simpl in Hb. rewrite andb_true_r in Hb.
    rewrite run_all by assumption. simpl app. simpl run.
    rewrite (is_dot_not_digit _ Hb), Nat.add_0_r.
    rewrite firstn_app, Nat.sub_diag, firstn_all, skipn_app, Nat.sub_diag,
      skipn_all. simpl. rewrite app_nil_r, Hb, Hd.
    destruct a; [simpl in Hla; lia|reflexivity].
Qed.

Lemma number_inv g rest s o c m :
  match_here (GOpen g :: Rep is_digit 1 None :: Rep is_dot 0 (Some 1%nat)
              :: Rep is_digit 0 None :: GClose g :: rest) s o c = Some m ->
  exists t s', s = t ++ s' /\ is_number t = true /\
    match_here rest s' ((g, s) :: o) ((g, t) :: c) = Some m.
Proof.
  rewrite match_here_GOpen. intros H.
  apply match_here_Rep_inv in H as (a & s1 & Hs & Ha & Hla & _ & H).
  apply match_here_Rep_inv in H as (b & s2 & -> & Hb & _ & Hlb & H).
  apply match_here_Rep_inv in H as (d & s3 & -> & Hd & _ & _ & H).
  rewrite match_here_GClose in H.
  exists (a ++ b ++ d), s3. subst s.
  replace (a ++ b ++ d ++ s3) with ((a ++ b ++ d) ++ s3) in *
    by (now rewrite <- !app_assoc).
  rewrite firstn_prefix in H.
  repeat split; auto. apply number_shape; auto.
Qed.

Lemma is_number_float t : is_number t = true -> exists x, parse_float t = Some x.
Proof.
  unfold is_number, parse_float. intros H.
  apply andb_prop in H as [Hn H].
  destruct (skipn (run is_digit t) t) as [|c fp].
  - rewrite Hn. eauto.
  - apply andb_prop in H as [-> ->]. rewrite Hn. simpl. eauto.
Qed.

Lemma match_here_Rep cls lo hi re s o c :
  match_here (Rep cls lo hi :: re) s o c
  = backtrack lo (cap hi (run cls s)) (fun k => match_here re (skipn k s) o c).
Proof. reflexivity. Qed.

Lemma match_here_Eol_nil o c : match_here [Eol] [] o c = Some c.
Proof. reflexivity. Qed.

(** Greedy matching takes the whole number when the line ends after it. *)
Lemma number_at_end g t o c :
  is_number t = true ->
  match_here [GOpen g; Rep is_digit 1 None; Rep is_dot 0 (Some 1%nat);
              Rep is_digit 0 None; GClose g; Eol] t o c = Some ((g, t) :: c).
Proof.
  unfold is_number. intros H. apply andb_prop in H as [Hn H].
  rewrite match_here_GOpen.
  assert (1 <= run is_digit t)%nat as Hk.
  { destruct (run is_digit t); [|lia]. simpl in Hn. discriminate. }
  assert (forall o', match_here [GClose g; Eol] [] ((g, t) :: o') c
                     = Some ((g, t) :: c)) as Hclose.
  { intros o'. rewrite match_here_GClose, match_here_Eol_nil. simpl length.
    now rewrite Nat.sub_0_r, firstn_all. }
  rewrite match_here_Rep. cbn [cap]. apply backtrack_first; [assumption|].
  destruct (skipn (run is_digit t) t) as [|x fp] eqn:Hsk.
  - rewrite match_here_Rep. apply backtrack_first; [simpl; lia|].
    change (skipn (cap (Some 1%nat) (run is_dot [])) []) with (@nil char).
    rewrite match_here_Rep. apply backtrack_first; [simpl; lia|].
    apply Hclose.
  - apply andb_prop in H as [Hx Hfp].
    rewrite match_here_Rep.
    assert (cap (Some 1%nat) (run is_dot (x :: fp)) = 1%nat) as ->
      by (simpl; now rewrite Hx).
    apply backtrack_first; [lia|].
    change (skipn 1 (x :: fp)) with fp.
    rewrite match_here_Rep. apply backtrack_first; [simpl; lia|].
    simpl cap. rewrite (run_forall _ _ Hfp), skipn_all.
    apply Hclose.
Qed.

Lemma match_here_Eol_inv s o c m :
  match_here [Eol] s o c = Some m -> m = c /\ (s = [] \/ s = [LF]).
Proof.
  destruct s as [|x [|y s]]; simpl; try discriminate.
  - intros [= <-]. auto.
  - destruct (char_eqb x LF) eqn:E; [|discriminate].
    apply char_eqb_eq in E as ->. intros [= <-]. auto.
Qed.

Lemma is_number_chars t : is_number t = true -> forallb is_digit_or_dot t = true.
Proof.
  unfold is_number. intros H. apply andb_prop in H as [_ H].
  rewrite <- (firstn_skipn (run is_digit t) t), forallb_app.
  destruct (run_firstn is_digit t (run is_digit t) (Nat.le_refl _)) as [Hd _].
  apply andb_true_intro. split.
  - apply forallb_forall. intros x Hx.
    unfold is_digit_or_dot. rewrite forallb_forall in Hd. now rewrite (Hd x Hx).
  - destruct (skipn (run is_digit t) t) as [|c fp]; [reflexivity|].
    apply andb_prop in H as [Hc Hfp]. simpl.
    unfold is_digit_or_dot at 1. rewrite Hc, orb_true_r. simpl.
    apply forallb_forall. intros x Hx.
    unfold is_digit_or_dot. rewrite forallb_forall in Hfp. now rewrite (Hfp x Hx).
Qed.

(** *** What a match of each pattern looks like *)

Lemma silence_start_here s m :
  match_here SILENCE_START_RE s [] [] = Some m ->
  exists t tail, s = str " silence_start: " ++ t ++ tail /\ is_number t = true /\
    (tail = [] \/ tail = [LF]) /\ m = [("start", t)].
Proof.
  unfold SILENCE_START_RE, lit. intros H.
  apply match_here_lit_inv in H as (s1 & -> & H).
  apply number_inv in H as (t & s2 & -> & Ht & H).
  apply match_here_Eol_inv in H as [-> Htail].
  now exists t, s2.
Qed.

Lemma silence_start_match line m :
  search SILENCE_START_RE line = Some m ->
  exists t, group m "start" = Some t /\ is_number t = true.
Proof.
  intros H. apply search_inv in H as (pre & s & -> & H).
  apply silence_start_here in H as (t & tail & _ & Ht & _ & ->).
  now exists t.
Qed.

Lemma silence_end_match line m :
  search SILENCE_END_RE line = Some m ->
  exists t, group m "end" = Some t /\ is_number t = true.
Proof.
  intros H. apply search_inv in H as (pre & s & -> & H).
  unfold SILENCE_END_RE, lit in H.
  apply match_here_lit_inv in H as (s1 & -> & H).
  change ([GOpen "end"; Rep is_digit 1 None; Rep is_dot 0 (Some 1%nat);
           Rep is_digit 0 None; GClose "end"] ++ map Chr (str " "))
    with (GOpen "end" :: Rep is_digit 1 None :: Rep is_dot 0 (Some 1%nat)
          :: Rep is_digit 0 None :: GClose "end" :: map Chr (str " ") ++ []) in H.
  apply number_inv in H as (t & s2 & -> & Ht & H).
  apply match_here_lit_inv in H as (s3 & -> & H).
  injection H as <-. now exists t.
Qed.

Lemma two_digits_int t :
  forallb is_digit t = true -> (2 <= length t)%nat ->
  exists z, py_int t = Ok z.
Proof.
  intros H Hl. unfold py_int. rewrite H.
  destruct t; [simpl in Hl; lia|]. simpl. eauto.
Qed.

Lemma total_duration_match line m :
  search TOTAL_DURATION_RE line = Some m ->
  exists gh gm gs h mi,
    group m "hours" = Some gh /\ py_int gh = Ok h /\
    group m "minutes" = Some gm /\ py_int gm = Ok mi /\
    group m "seconds" = Some gs.
Proof.
  intros H. apply search_inv in H as (pre & s & -> & H).
  unfold TOTAL_DURATION_RE, lit in H.
  apply match_here_lit_inv in H as (s1 & -> & H).
  apply (match_here_Rep_inv not_space 1 None) in H as (tok & s2 & -> & _ & _ & _ & H).
  apply match_here_lit_inv in H as (s3 & -> & H).
  change (match_here (GOpen "hours" :: Rep is_digit 2 (Some 2%nat) :: GClose "hours"
            :: map Chr (str ":") ++
               [GOpen "minutes"; Rep is_digit 2 (Some 2%nat); GClose "minutes"] ++
               map Chr (str ":") ++
               [GOpen "seconds"; Rep is_digit_or_dot 5 (Some 5%nat); GClose "seconds"] ++
               map Chr (str " bitrate=")) s3 [] [] = Some m) in H.
  rewrite match_here_GOpen in H.
  apply match_here_Rep_inv in H as (gh & s4 & -> & Hgh & Hlh & _ & H).
  rewrite match_here_GClose, firstn_prefix in H.
  apply match_here_lit_inv in H as (s5 & -> & H).
  change (match_here (GOpen "minutes" :: Rep is_digit 2 (Some 2%nat) :: GClose "minutes"
            :: map Chr (str ":") ++
               [GOpen "seconds"; Rep is_digit_or_dot 5 (Some 5%nat); GClose "seconds"] ++
               map Chr (str " bitrate=")) s5
            [("hours", gh ++ str ":" ++ s5)] [("hours", gh)] = Some m) in H.
  rewrite match_here_GOpen in H.
  apply match_here_Rep_inv in H as (gm & s6 & -> & Hgm & Hlm & _ & H).
  rewrite match_here_GClose, firstn_prefix in H.
  apply match_here_lit_inv in H as (s7 & -> & H).
  change (match_here (GOpen "seconds" :: Rep is_digit_or_dot 5 (Some 5%nat)
            :: GClose "seconds" :: map Chr (str " bitrate=") ++ []) s7
            [("minutes", gm ++ str ":" ++ s7); ("hours", gh ++ str ":" ++ gm ++ str ":" ++ s7)]
            [("minutes", gm); ("hours", gh)] = Some m) in H.
  rewrite match_here_GOpen in H.
  apply match_here_Rep_inv in H as (gs & s8 & -> & Hgs & Hls & _ & H).
  rewrite match_here_GClose, firstn_prefix in H.
  apply match_here_lit_inv in H as (s9 & -> & H).
  injection H as <-.
  destruct (two_digits_int gh Hgh Hlh) as [h Hh].
  destruct (two_digits_int gm Hgm Hlm) as [mi Hmi].
  exists gh, gm, gs, h, mi. repeat split; auto.
Qed.

(** ** The scanning loop *)

Lemma bind_Ok {A B} (r : result A) (f : A -> result B) b :
  (r ≫= f) = Ok b -> exists a, r = Ok a /\ f a = Ok b.
Proof. destruct r as [a|e]; simpl; [eauto|discriminate]. Qed.

(** The loop body classifies the line and applies its kind. *)
Lemma step_classify st line :
  step st line = k ← classify line; Ok (apply_kind st k).
Proof.
  unfold step, classify.
  destruct (search SILENCE_START_RE line) as [m|].
  - destruct (py_group m "start") as [g|e]; simpl; [|reflexivity].
    destruct (py_float g) as [t|e]; simpl; [|reflexivity].
    unfold apply_kind. now destruct (chunk_starts st).
  - destruct (search SILENCE_END_RE line) as [m|].
    + destruct (py_group m "end") as [g|e]; simpl; [|reflexivity].
      now destruct (py_float g).
    + destruct (search TOTAL_DURATION_RE line) as [m|]; [|reflexivity].
      destruct (py_group m "hours") as [gh|e]; simpl; [|reflexivity].
      destruct (py_int gh) as [h|e]; simpl; [|reflexivity].
      destruct (py_group m "minutes") as [gm|e]; simpl; [|reflexivity].
      destruct (py_int gm) as [mi|e]; simpl; [|reflexivity].
      destruct (py_group m "seconds") as [gs|e]; simpl; [|reflexivity].
      now destruct (py_float gs).
Qed.

Lemma scan_lines_cons st line rest st' :
  scan_lines st (line :: rest) = Ok st' ->
  exists k, classify line = Ok k /\ scan_lines (apply_kind st k) rest = Ok st'.
Proof.
  simpl. intros H. apply bind_Ok in H as (st1 & Hstep & H).
  rewrite step_classify in Hstep. apply bind_Ok in Hstep as (k & Hk & [= <-]).
  eauto.
Qed.

Lemma scan_lines_app st l1 l2 :
  scan_lines st (l1 ++ l2) = st' ← scan_lines st l1; scan_lines st' l2.
Proof.
  revert st. induction l1 as [|line l1 IH]; intros st; simpl; [reflexivity|].
  destruct (step st line) as [st1|e]; simpl; [apply IH|reflexivity].
Qed.

Lemma apply_kind_starts_before_ends st k :
  starts_before_ends st -> starts_before_ends (apply_kind st k).
Proof.
  unfold starts_before_ends. destruct k; simpl; auto.
  - destruct (chunk_starts st); discriminate.
  - intros _ H. now destruct (chunk_starts st).
Qed.

Lemma scan_lines_starts_before_ends lines : forall st st',
  starts_before_ends st -> scan_lines st lines = Ok st' -> starts_before_ends st'.
Proof.
  induction lines as [|line rest IH]; intros st st' Hinv H.
  - injection H as <-. assumption.
  - apply scan_lines_cons in H as (k & _ & H).
    eapply IH; [|eassumption]. now apply apply_kind_starts_before_ends.
Qed.

Lemma scan0_starts_before_ends : starts_before_ends scan0.
Proof. intros _. reflexivity. Qed.

(** The file duration after the loop is that of the last duration line. *)
Lemma scan_lines_end_time lines : forall st st',
  scan_lines st lines = Ok st' ->
  end_time st' = match last_duration lines with
                 | Some d => Some d
                 | None => end_time st
                 end.
Proof.
  induction lines as [|line rest IH]; intros st st' H.
  - injection H as <-. reflexivity.
  - apply scan_lines_cons in H as (k & Hk & H).
    rewrite (IH _ _ H). simpl. destruct (last_duration rest); [reflexivity|].
    rewrite Hk. now destruct k.
Qed.

(** Lines without a silence event leave both lists as they are. *)
Lemma scan_lines_no_silence lines : forall st st',
  (forall line, In line lines ->
     search SILENCE_START_RE line = None /\ search SILENCE_END_RE line = None) ->
  scan_lines st lines = Ok st' ->
  chunk_starts st' = chunk_starts st /\ chunk_ends st' = chunk_ends st.
Proof.
  induction lines as [|line rest IH]; intros st st' Hno H.
  - injection H as <-. auto.
  - apply scan_lines_cons in H as (k & Hk & H).
    destruct (IH _ _ (fun l Hl => Hno l (or_intror Hl)) H) as [-> ->].
    destruct (Hno line (or_introl eq_refl)) as [Hs He].
    unfold classify in Hk. rewrite Hs, He in Hk.
    destruct (search TOTAL_DURATION_RE line) as [m|].
    + apply bind_Ok in Hk as (gh & _ & Hk). apply bind_Ok in Hk as (h & _ & Hk).
      apply bind_Ok in Hk as (gm & _ & Hk). apply bind_Ok in Hk as (mi & _ & Hk).
      apply bind_Ok in Hk as (gs & _ & Hk). apply bind_Ok in Hk as (s & _ & Hk).
      injection Hk as <-. auto.
    + injection Hk as <-. auto.
Qed.

Lemma bind_Ok_l {A B} (a : A) (f : A -> result B) : (Ok a ≫= f) = f a.
Proof. reflexivity. Qed.

Lemma py_group_Some m name t : group m name = Some t -> py_group m name = Ok t.
Proof. unfold py_group. now intros ->. Qed.

Lemma py_float_Some t x : parse_float t = Some x -> py_float t = Ok x.
Proof. unfold py_float. now intros ->. Qed.

Lemma py_float_number t : is_number t = true -> exists x, py_float t = Ok x.
Proof.
  intros H. destruct (is_number_float _ H) as [x Hx].
  exists x. now apply py_float_Some.
Qed.

(** A line is processed without an exception unless it is a duration line
    with a seconds field that is not a number. *)
Lemma classify_total line :
  malformed_duration line = false -> exists k, classify line = Ok k.
Proof.
  unfold malformed_duration, classify.
  destruct (search SILENCE_START_RE line) as [m|] eqn:Hs.
  - intros _. destruct (silence_start_match _ _ Hs) as (t & Hg & Ht).
    destruct (py_float_number _ Ht) as [x Hx].
    rewrite (py_group_Some _ _ _ Hg), bind_Ok_l, Hx, bind_Ok_l. eauto.
  - destruct (search SILENCE_END_RE line) as [m|] eqn:He.
    + intros _. destruct (silence_end_match _ _ He) as (t & Hg & Ht).
      destruct (py_float_number _ Ht) as [x Hx].
      rewrite (py_group_Some _ _ _ Hg), bind_Ok_l, Hx, bind_Ok_l. eauto.
    + destruct (search TOTAL_DURATION_RE line) as [m|] eqn:Hd; [|eauto].
      destruct (total_duration_match _ _ Hd)
        as (gh & gm & gs & h & mi & Hgh & Hh & Hgm & Hmi & Hgs).
      rewrite Hgs, (py_group_Some _ _ _ Hgh), bind_Ok_l, Hh, bind_Ok_l,
        (py_group_Some _ _ _ Hgm), bind_Ok_l, Hmi, bind_Ok_l,
        (py_group_Some _ _ _ Hgs), bind_Ok_l.
      destruct (parse_float gs) as [x|] eqn:Hx; [|discriminate].
      rewrite (py_float_Some _ _ Hx), bind_Ok_l. eauto.
Qed.

Lemma classify_malformed line :
  malformed_duration line = true ->
  exists msg, classify line = Raise (ValueError msg).
Proof.
  unfold malformed_duration, classify.
  destruct (search SILENCE_START_RE line); [discriminate|].
  destruct (search SILENCE_END_RE line); [discriminate|].
  destruct (search TOTAL_DURATION_RE line) as [m|] eqn:Hd; [|discriminate].
  destruct (total_duration_match _ _ Hd)
    as (gh & gm & gs & h & mi & Hgh & Hh & Hgm & Hmi & Hgs).
  rewrite Hgs, (py_group_Some _ _ _ Hgh), bind_Ok_l, Hh, bind_Ok_l,
    (py_group_Some _ _ _ Hgm), bind_Ok_l, Hmi, bind_Ok_l,
    (py_group_Some _ _ _ Hgs), bind_Ok_l.
  unfold py_float. destruct (parse_float gs); [discriminate|].
  intros _. simpl. eauto.
Qed.

Lemma scan_lines_total lines : forall st,
  forallb (fun line => negb (malformed_duration line)) lines = true ->
  exists st', scan_lines st lines = Ok st'.
Proof.
  induction lines as [|line rest IH]; intros st H; simpl; [eauto|].
  simpl in H. apply andb_prop in H as [Hl Hr].
  apply negb_true_iff in Hl. destruct (classify_total _ Hl) as [k Hk].
  rewrite step_classify, Hk. simpl. apply IH, Hr.
Qed.

Lemma scan_lines_raises lines : forall st,
  forallb (fun line => negb (malformed_duration line)) lines = false ->
  exists msg, scan_lines st lines = Raise (ValueError msg).
Proof.
  induction lines as [|line rest IH]; intros st H; simpl; [discriminate|].
  simpl in H. rewrite step_classify.
  destruct (malformed_duration line) eqn:Hl.
  - destruct (classify_malformed _ Hl) as [msg ->]. simpl. eauto.
  - destruct (classify_total _ Hl) as [k ->]. simpl. apply IH, H.
Qed.

(** ** Interval reconstruction *)

Lemma seeded_starts_eq st :
  seeded_starts st =
  if (length (chunk_starts st) =? 0)%nat
  then chunk_starts st ++ [start_time] else chunk_starts st.
Proof.
  unfold seeded_starts, close_chunks.
  now destruct ((_ <? _)%nat && (_ <? _)%nat).
Qed.

Lemma seeded_starts_nonempty st : seeded_starts st = chunk_starts st \/
  (chunk_starts st = [] /\ seeded_starts st = [start_time]).
Proof.
  rewrite seeded_starts_eq. destruct (chunk_starts st); simpl; auto.
Qed.

Lemma parse_scan output st :
  scan_lines scan0 (splitlines output) = Ok st -> parse output = Ok (finish st).
Proof. unfold parse. now intros ->. Qed.

Lemma finish_close st starts ends flag :
  close_chunks st = (starts, ends, flag) -> finish st = (combine starts ends, flag).
Proof. unfold finish. now intros ->. Qed.

Lemma combine_lookup {A B} (l : list A) (k : list B) i a b :
  combine l k !! i = Some (a, b) <-> l !! i = Some a /\ k !! i = Some b.
Proof.
  revert k i. induction l as [|x l IH]; intros [|y k] [|i]; simpl;
    try (split; [discriminate|intros [? ?]; discriminate]).
  - split; [intros [= -> ->]; auto|intros [[= ->] [= ->]]; auto].
  - apply IH.
Qed.

(** The flag is true exactly when the loop left more starts than ends and
    at least one end. *)
Lemma close_chunks_true st starts ends :
  close_chunks st = (starts, ends, true) ->
  starts = chunk_starts st /\
  ends = chunk_ends st ++ [or_else (end_time st) 10000000%float] /\
  (0 < length (chunk_ends st) < length (chunk_starts st))%nat.
Proof.
  unfold close_chunks.
  destruct (chunk_starts st) as [|a starts0] eqn:Hs; simpl length;
    destruct (chunk_ends st) as [|b ends0] eqn:He; simpl length.
  - simpl. discriminate.
  - simpl. discriminate.
  - simpl. discriminate.
  - change (S (length starts0) =? 0)%nat with false. cbn iota.
    destruct (Nat.ltb_spec (S (length ends0)) (S (length starts0))); simpl.
    + intros [= <- <-]. repeat split; auto; lia.
    + discriminate.
Qed.

Lemma close_chunks_open st :
  (0 < length (chunk_ends st) < length (chunk_starts st))%nat ->
  close_chunks st =
  (chunk_starts st, chunk_ends st ++ [or_else (end_time st) 10000000%float], true).
Proof.
  intros [H0 H1]. unfold close_chunks.
  destruct (Nat.eqb_spec (length (chunk_starts st)) 0); [lia|].
  destruct (Nat.ltb_spec (length (chunk_ends st)) (length (chunk_starts st))); [|lia].
  destruct (Nat.ltb_spec 0 (length (chunk_ends st))); [|lia].
  reflexivity.
Qed.

Lemma close_chunks_equal st :
  length (seeded_starts st) = length (chunk_ends st) ->
  close_chunks st = (seeded_starts st, chunk_ends st, false).
Proof.
  rewrite seeded_starts_eq. unfold close_chunks.
  destruct (length (chunk_starts st) =? 0)%nat; intros ->;
    now rewrite Nat.ltb_irrefl.
Qed.

(** The fallback for an empty starts list never contributes an interval:
    the ends list is then empty too, and the closing branch asks for a
    non-empty ends list. *)
Lemma empty_starts_no_interval st :
  starts_before_ends st -> chunk_starts st = [] -> finish st = ([], false).
Proof.
  intros Hinv Hs. unfold finish, close_chunks. rewrite Hs, (Hinv Hs). reflexivity.
Qed.

Lemma scan_lines_unrecognized lines : forall st,
  (forall line, In line lines ->
     search SILENCE_START_RE line = None /\ search SILENCE_END_RE line = None /\
     search TOTAL_DURATION_RE line = None) ->
  scan_lines st lines = Ok st.
Proof.
  induction lines as [|line rest IH]; intros st Hno; simpl; [reflexivity|].
  destruct (Hno line (or_introl eq_refl)) as (Hs & He & Hd).
  unfold step. rewrite Hs, He, Hd. simpl.
  apply IH. intros l Hl. apply Hno. now right.
Qed.

(** C1 (as amended): when the loop leaves the starts list, after the
    fallback for an empty list, and the ends list with equal lengths, no
    closing time is added and the flag returned is false; the diagnostic
    text with the single event silence_start 3.0 gives the one interval
    (0.0, 3.0) and the flag false. *)
Theorem equal_lengths_no_closing_time :
  (forall output st,
     scan_lines scan0 (splitlines output) = Ok st ->
     length (seeded_starts st) = length (chunk_ends st) ->
     close_chunks st = (seeded_starts st, chunk_ends st, false) /\
     parse output = Ok (combine (seeded_starts st) (chunk_ends st), false))
  /\ parse (str "[silencedetect @ 0x5581] silence_start: 3.0")
     = Ok ([(0%float, 3%float)], false).
Proof.
  split; [|vm_compute; reflexivity].
  intros output st Hscan Hlen.
  pose proof (close_chunks_equal st Hlen) as Hc.
  split; [assumption|].
  rewrite (parse_scan _ _ Hscan). f_equal. now apply finish_close.
Qed.

Lemma equal_lengths_no_closing_time_witness :
  parse (str "[silencedetect @ 0x5581] silence_start: 3.0"
         ++ NL ++ str "[silencedetect @ 0x5581] silence_end: 4.5 | silence_duration: 1.5"
         ++ NL ++ str "[silencedetect @ 0x5581] silence_start: 8")
  = Ok ([(0%float, 3%float); (4.5%float, 8%float)], false).
Proof.
  apply (proj1 equal_lengths_no_closing_time _
           (Scan [0%float; 4.5%float] [3%float; 8%float] None));
    vm_compute; reflexivity.
Defined.

(** C1 as stated fails: on the text with the single event
    silence_start 3.0 the two lists have length one and the flag is false. *)
Lemma equal_lengths_resolved_counterexample :
  exists st,
    scan_lines scan0 (splitlines (str "[silencedetect @ 0x5581] silence_start: 3.0"))
    = Ok st /\
    length (seeded_starts st) = length (chunk_ends st) /\
    parse (str "[silencedetect @ 0x5581] silence_start: 3.0")
    = Ok ([(0%float, 3%float)], false) /\
    parse (str "[silencedetect @ 0x5581] silence_start: 3.0")
    <> Ok ([(0%float, 3%float)], true).
Proof.
  exists (Scan [0%float] [3%float] None).
  repeat split; try (vm_compute; reflexivity).
  vm_compute. discriminate.
Qed.

(** C2 (what the code does): for a text none of whose lines is recognised
    as a silence-start, silence-end or total-duration line, no interval is
    returned and the flag is false.  The specification asks for the one
    interval (0.0, 1e7) and the flag true. *)
Theorem no_recognized_line_no_interval output :
  (forall line, In line (splitlines output) ->
     search SILENCE_START_RE line = None /\ search SILENCE_END_RE line = None /\
     search TOTAL_DURATION_RE line = None) ->
  parse output = Ok ([], false).
Proof.
  intros Hno. unfold parse.
  rewrite (scan_lines_unrecognized _ scan0 Hno). reflexivity.
Qed.

Lemma no_recognized_line_no_interval_witness :
  parse (str "Input #0, mp3, from '/tmp/clip.mp3':" ++ NL
         ++ str "  Duration: 00:00:10.03, start: 0.000000") = Ok ([], false).
Proof.
  apply no_recognized_line_no_interval.
  intros line [<-|[<-|[]]]; vm_compute; auto.
Defined.

(** C3 (what the code does): for a text without silence events, whatever
    its total-duration lines, no interval is returned and the flag is
    false.  The specification asks for the interval (0.0, duration) and
    the flag true. *)
Theorem no_silence_event_no_interval output st :
  (forall line, In line (splitlines output) ->
     search SILENCE_START_RE line = None /\ search SILENCE_END_RE line = None) ->
  scan_lines scan0 (splitlines output) = Ok st ->
  end_time st = last_duration (splitlines output) /\
  parse output = Ok ([], false).
Proof.
  intros Hno Hscan. split.
  - rewrite (scan_lines_end_time _ _ _ Hscan).
    now destruct (last_duration (splitlines output)).
  - rewrite (parse_scan _ _ Hscan). f_equal.
    destruct (scan_lines_no_silence _ _ _ Hno Hscan) as [Hs _].
    apply empty_starts_no_interval; [|exact Hs].
    exact (scan_lines_starts_before_ends _ _ _ scan0_starts_before_ends Hscan).
Qed.

Lemma no_silence_event_no_interval_witness :
  last_duration (splitlines (str "size=N/A time=00:00:10.00 bitrate=N/A speed= 920x"))
  = Some 10%float /\
  parse (str "size=N/A time=00:00:10.00 bitrate=N/A speed= 920x") = Ok ([], false).
Proof.
  destruct (no_silence_event_no_interval
              (str "size=N/A time=00:00:10.00 bitrate=N/A speed= 920x")
              (Scan [] [] (Some 10%float))) as [Hd Hp].
  - intros line [<-|[]]; vm_compute; auto.
  - vm_compute. reflexivity.
  - split; [rewrite <- Hd; reflexivity|exact Hp].
Defined.

(** C5 (as amended): when the loop leaves more starts than ends and at
    least one end, one closing time is appended to the ends list and the
    flag is true; the closing time is the total of the last total-duration
    line when there is one and that total is not zero, and 1e7 otherwise. *)
Theorem open_chunk_closed output st :
  scan_lines scan0 (splitlines output) = Ok st ->
  (length (chunk_ends st) < length (chunk_starts st))%nat ->
  (0 < length (chunk_ends st))%nat ->
  let closing :=
    match last_duration (splitlines output) with
    | Some d => if (d =? 0)%float then 10000000%float else d
    | None => 10000000%float
    end in
  close_chunks st = (chunk_starts st, chunk_ends st ++ [closing], true) /\
  parse output = Ok (combine (chunk_starts st) (chunk_ends st ++ [closing]), true).
Proof.
  intros Hscan Hlt Hpos closing.
  assert (closing = or_else (end_time st) 10000000%float) as ->.
  { rewrite (scan_lines_end_time _ _ _ Hscan). subst closing. simpl.
    destruct (last_duration (splitlines output)) as [d|]; [|reflexivity].
    unfold or_else, truthy. now destruct (d =? 0)%float. }
  pose proof (close_chunks_open st (conj Hpos Hlt)) as Hc.
  split; [assumption|].
  rewrite (parse_scan _ _ Hscan). f_equal. now apply finish_close.
Qed.

Lemma open_chunk_closed_witness :
  parse (open_chunk_text "00:01:10.50")
  = Ok ([(0%float, 1%float); (2%float, 70.5%float)], true).
Proof.
  refine (proj2 (open_chunk_closed (open_chunk_text "00:01:10.50")
                   (Scan [0%float; 2%float] [1%float] (Some 70.5%float)) _ _ _)).
  - vm_compute. reflexivity.
  - simpl. lia.
  - simpl. lia.
Defined.

(** C5 as stated fails: a total-duration line was read, its total is 0.0,
    and the closing time appended is 1e7. *)
Lemma open_chunk_zero_duration_counterexample :
  last_duration (splitlines (open_chunk_text "00:00:00.00")) = Some 0%float /\
  parse (open_chunk_text "00:00:00.00")
  = Ok ([(0%float, 1%float); (2%float, 10000000%float)], true) /\
  parse (open_chunk_text "00:00:00.00")
  <> Ok ([(0%float, 1%float); (2%float, 0%float)], true).
Proof.
  repeat split; try (vm_compute; reflexivity).
  vm_compute. discriminate.
Qed.

(** C9 (as amended): when the flag returned is true, the interval list is
    not empty, it pairs the starts and the ends by position and is as long
    as the ends list, which has at least two entries and is not longer
    than the starts list; the two lists have equal lengths exactly when the
    loop left one more start than ends. *)
Theorem resolved_intervals output st starts ends :
  scan_lines scan0 (splitlines output) = Ok st ->
  close_chunks st = (starts, ends, true) ->
  parse output = Ok (combine starts ends, true) /\
  combine starts ends <> [] /\
  (forall i a b, combine starts ends !! i = Some (a, b) <->
                 starts !! i = Some a /\ ends !! i = Some b) /\
  length (combine starts ends) = length ends /\
  (2 <= length ends <= length starts)%nat /\
  (length starts = length ends <->
   length (chunk_starts st) = S (length (chunk_ends st))).
Proof.
  intros Hscan Hc.
  destruct (close_chunks_true _ _ _ Hc) as (Hs & He & Hlen).
  assert (length ends = S (length (chunk_ends st))) as Hle
    by (rewrite He, length_app; simpl; lia).
  assert (length (combine starts ends) = length ends) as Hcomb
    by (rewrite length_combine, Hle, Hs; lia).
  split; [|split; [|split; [|split; [|split]]]].
  - rewrite (parse_scan _ _ Hscan). f_equal. now apply finish_close.
  - intros Hnil. rewrite Hnil in Hcomb. simpl in Hcomb. lia.
  - intros i a b. apply combine_lookup.
  - exact Hcomb.
  - rewrite Hle, Hs. lia.
  - rewrite Hle, Hs. lia.
Qed.

Lemma resolved_intervals_witness :
  parse (open_chunk_text "00:01:10.50")
  = Ok (combine [0%float; 2%float] [1%float; 70.5%float], true).
Proof.
  refine (proj1 (resolved_intervals (open_chunk_text "00:01:10.50")
                   (Scan [0%float; 2%float] [1%float] (Some 70.5%float))
                   [0%float; 2%float] [1%float; 70.5%float] _ _)).
  - vm_compute. reflexivity.
  - vm_compute. reflexivity.
Defined.

(** C9 as stated fails: three silence-end lines and one silence-start line
    give the flag true with three starts and two ends at the return. *)
Lemma resolved_equal_lengths_counterexample :
  exists st,
    scan_lines scan0 (splitlines three_ends_one_start) = Ok st /\
    close_chunks st
    = ([1%float; 2%float; 3%float], [4%float; 10000000%float], true) /\
    parse three_ends_one_start
    = Ok ([(1%float, 4%float); (2%float, 10000000%float)], true) /\
    length [1%float; 2%float; 3%float] <> length [4%float; 10000000%float].
Proof.
  exists (Scan [1%float; 2%float; 3%float] [4%float] None).
  repeat split; try (vm_compute; reflexivity).
  simpl. lia.
Qed.

(** ** Silence-start lines *)

Lemma skipn_app_In {A} (a b : list A) x n :
  (n <= length a)%nat -> In x (skipn n (a ++ x :: b)).
Proof.
  intros H. rewrite skipn_app.
  replace (n - length a)%nat with 0%nat by lia.
  apply in_or_app. right. now left.
Qed.

(** The pattern cannot match before the last occurrence of its literal:
    the number would have to contain the space that ends the literal. *)
Lemma silence_start_not_earlier x pre num :
  match_here SILENCE_START_RE (x :: pre ++ str " silence_start: " ++ num) [] []
  = None.
Proof.
  destruct (match_here _ _ _ _) as [m|] eqn:E; [exfalso|reflexivity].
  apply silence_start_here in E as (t & tail & Heq & Ht & Htail & _).
  assert (In 32%N (skipn 16 (x :: pre ++ str " silence_start: " ++ num))) as Hin.
  { change (str " silence_start: ") with (str " silence_start:" ++ [32%N]).
    replace (x :: pre ++ (str " silence_start:" ++ [32%N]) ++ num)
      with ((x :: pre ++ str " silence_start:") ++ 32%N :: num)
      by (simpl; now rewrite <- !app_assoc).
    apply skipn_app_In. simpl length. rewrite length_app.
    change (length (str " silence_start:")) with 15%nat. lia. }
  rewrite Heq, skipn_app in Hin.
  change (skipn 16 (str " silence_start: ")) with (@nil char) in Hin.
  change (16 - length (str " silence_start: "))%nat with 0%nat in Hin.
  simpl in Hin. apply in_app_or in Hin as [Hin|Hin].
  - apply is_number_chars in Ht. rewrite forallb_forall in Ht.
    specialize (Ht _ Hin). discriminate.
  - destruct Htail as [->| ->]; simpl in Hin; [tauto|].
    destruct Hin as [Hin|[]]. discriminate.
Qed.

(** A line that ends in the literal (with its leading space) and a number
    is matched there, and the group is the number. *)
Lemma search_silence_start pre num :
  is_number num = true ->
  search SILENCE_START_RE (pre ++ str " silence_start: " ++ num)
  = Some [("start", num)].
Proof.
  intros Hn. induction pre as [|x pre IH].
  - change ([] ++ str " silence_start: " ++ num)
      with (str " silence_start: " ++ num).
    apply search_here. unfold SILENCE_START_RE, lit.
    rewrite match_here_lit_app. now apply number_at_end.
  - change ((x :: pre) ++ str " silence_start: " ++ num)
      with (x :: pre ++ str " silence_start: " ++ num).
    rewrite search_skip by apply silence_start_not_earlier. exact IH.
Qed.

(** C7 (as amended): a line that ends in a space, the token
    silence_start:, a space and an unsigned decimal number is a
    silence-start event whose time is that number, whatever precedes the
    first of these spaces; the loop appends the time to the ends list. *)
Theorem silence_start_suffix_recognized pre num st :
  is_number num = true ->
  exists t,
    parse_float num = Some t /\
    classify (pre ++ str " silence_start: " ++ num) = Ok (SilenceStart t) /\
    step st (pre ++ str " silence_start: " ++ num)
    = Ok (Scan (match chunk_starts st with [] => [0%float] | _ => chunk_starts st end)
            (chunk_ends st ++ [t]) (end_time st)).
Proof.
  intros Hn. destruct (is_number_float _ Hn) as [t Ht]. exists t.
  assert (classify (pre ++ str " silence_start: " ++ num) = Ok (SilenceStart t))
    as Hk.
  { unfold classify. rewrite (search_silence_start pre num Hn).
    change (py_group [("start", num)] "start") with (Ok num).
    rewrite bind_Ok_l.
    now rewrite (py_float_Some _ _ Ht). }
  repeat split; auto.
  now rewrite step_classify, Hk.
Qed.

Lemma silence_start_suffix_recognized_witness :
  exists t,
    parse_float (str "12.75") = Some t /\
    classify (str "[silencedetect @ 0x5581] silence_start: 12.75")
    = Ok (SilenceStart t) /\
    step scan0 (str "[silencedetect @ 0x5581] silence_start: 12.75")
    = Ok (Scan [0%float] [t] None).
Proof.
  exact (silence_start_suffix_recognized (str "[silencedetect @ 0x5581]")
           (str "12.75") scan0 eq_refl).
Defined.

(** C7 as stated fails: a line that ends in the token and a number, with
    no space before the token, is not a silence-start event and leaves the
    ends list as it is. *)
Lemma silence_start_no_space_counterexample :
  is_number (str "3.0") = true /\
  search SILENCE_START_RE (str "silence_start: 3.0") = None /\
  search SILENCE_START_RE (str "[silencedetect]silence_start: 3.0") = None /\
  classify (str "silence_start: 3.0") = Ok Unrecognized /\
  step scan0 (str "silence_start: 3.0") = Ok scan0.
Proof. repeat split; vm_compute; reflexivity. Qed.

(** ** Malformed input *)

Lemma run_stops cls s c r : skipn (run cls s) s = c :: r -> cls c = false.
Proof.
  induction s as [|x s IH]; simpl; [discriminate|].
  destruct (cls x) eqn:E; simpl; [exact IH|].
  now intros [= <- _].
Qed.

Lemma dots_digits t : forallb is_digit t = true -> dots t = 0%nat.
Proof.
  unfold dots. induction t as [|x t IH]; simpl; [reflexivity|].
  intros H. apply andb_prop in H as [Hx Ht].
  destruct (is_dot x) eqn:E; [|now apply IH].
  apply is_dot_not_digit in E. congruence.
Qed.

Lemma dots_not_digits t :
  forallb is_digit_or_dot t = true -> forallb is_digit t = false ->
  (1 <= dots t)%nat.
Proof.
  unfold dots. induction t as [|x t IH]; simpl; [discriminate|].
  intros H Hd. apply andb_prop in H as [Hx Ht].
  unfold is_digit_or_dot in Hx.
  destruct (is_dot x); [simpl; lia|].
  rewrite orb_false_r in Hx. rewrite Hx in Hd. now apply IH.
Qed.

(** What float() rejects among the seconds fields the duration pattern can
    capture: exactly those with two dots or more. *)
Lemma seconds_field_rejected gs :
  forallb is_digit_or_dot gs = true -> (2 <= length gs)%nat ->
  (parse_float gs = None <-> (2 <= dots gs)%nat).
Proof.
  intros Hall Hlen. unfold parse_float.
  destruct (run_firstn is_digit gs (run is_digit gs) (Nat.le_refl _)) as [Ha Hla].
  pose proof (firstn_skipn (run is_digit gs) gs) as Hsplit.
  assert (dots gs = dots (skipn (run is_digit gs) gs)) as ->.
  { rewrite <- Hsplit at 1. unfold dots. rewrite List.filter_app, length_app.
    fold (dots (firstn (run is_digit gs) gs)). now rewrite (dots_digits _ Ha). }
  rewrite <- Hsplit, forallb_app in Hall. apply andb_prop in Hall as [_ Hrest].
  assert (length (firstn (run is_digit gs) gs)
          + length (skipn (run is_digit gs) gs) = length gs)%nat as Hsum
    by (now rewrite <- length_app, Hsplit).
  destruct (skipn (run is_digit gs) gs) as [|c fp] eqn:Hsk.
  - simpl in Hsum. unfold dots. simpl.
    destruct (firstn (run is_digit gs) gs); [simpl in Hsum; lia|].
    simpl. split; [discriminate|lia].
  - pose proof (run_stops _ _ _ _ Hsk) as Hc.
    simpl in Hrest. apply andb_prop in Hrest as [Hcd Hfp].
    unfold is_digit_or_dot in Hcd. rewrite Hc in Hcd. simpl in Hcd.
    rewrite Hcd. unfold dots. simpl List.filter. rewrite Hcd. simpl length.
    fold (dots fp). simpl in Hsum.
    destruct (forallb is_digit fp) eqn:Hd.
    + rewrite (dots_digits _ Hd). simpl.
      destruct (firstn (run is_digit gs) gs), fp; simpl in *;
        try (split; [discriminate|lia]); lia.
    + simpl. pose proof (dots_not_digits _ Hfp Hd). split; [lia|reflexivity].
Qed.

(** C4 (as amended): the parser returns normally exactly when no line
    reaches the duration branch with a seconds field that float() rejects;
    such a line raises ValueError out of the parser.  A line that matches no
    pattern is skipped, and the empty text gives no interval and the flag
    false. *)
Theorem parse_returns_unless_malformed :
  (forall output,
     forallb (fun line => negb (malformed_duration line)) (splitlines output) = true ->
     exists r, parse output = Ok r) /\
  (forall output,
     forallb (fun line => negb (malformed_duration line)) (splitlines output) = false ->
     exists msg, parse output = Raise (ValueError msg)) /\
  (forall st line,
     search SILENCE_START_RE line = None -> search SILENCE_END_RE line = None ->
     search TOTAL_DURATION_RE line = None -> step st line = Ok st) /\
  parse [] = Ok ([], false).
Proof.
  split; [|split; [|split]].
  - intros output H. destruct (scan_lines_total _ scan0 H) as [st Hst].
    exists (finish st). now apply parse_scan.
  - intros output H. destruct (scan_lines_raises _ scan0 H) as [msg Hmsg].
    exists msg. unfold parse. now rewrite Hmsg.
  - intros st line Hs He Hd. unfold step. now rewrite Hs, He, Hd.
  - reflexivity.
Qed.

Lemma parse_returns_unless_malformed_witness :
  (exists r,
     parse (str "size=N/A time=00:00:12.40 bitrate=N/A" ++ NL
            ++ str "time=12..4 and other noise" ++ NL
            ++ str "[silencedetect @ 0x5581] silence_end: 2. | silence_duration: 2")
     = Ok r) /\
  (exists msg, parse (str "size=N/A time=00:00:12..4 bitrate=N/A")
               = Raise (ValueError msg)).
Proof.
  split.
  - apply (proj1 parse_returns_unless_malformed). vm_compute. reflexivity.
  - apply (proj1 (proj2 parse_returns_unless_malformed)). vm_compute. reflexivity.
Defined.

(** C4 as stated fails: a duration line whose seconds field is 12..4
    raises ValueError. *)
Lemma malformed_seconds_counterexample :
  search TOTAL_DURATION_RE (str "size=N/A time=00:00:12..4 bitrate=N/A")
  = Some [("seconds", str "12..4"); ("minutes", str "00"); ("hours", str "00")] /\
  parse (str "size=N/A time=00:00:12..4 bitrate=N/A")
  = Raise (ValueError (str "could not convert string to float: '12..4'")).
Proof. split; vm_compute; reflexivity. Qed.

(** ** The file duration *)

Lemma py_int_val t z : py_int t = Ok z -> z = digits_val t.
Proof.
  unfold py_int. destruct (nonempty t && forallb is_digit t); [|discriminate].
  now intros [= <-].
Qed.

Lemma last_duration_app l1 d l2 h m s :
  classify d = Ok (TotalDurationMarker h m s) ->
  last_duration l2 = None ->
  last_duration (l1 ++ d :: l2) = Some (total_seconds h m s).
Proof.
  intros Hd Hl2. induction l1 as [|l l1 IH]; simpl.
  - now rewrite Hl2, Hd.
  - now rewrite IH.
Qed.

Lemma last_duration_None lines :
  (forall l, In l lines ->
     forall h m s, classify l <> Ok (TotalDurationMarker h m s)) ->
  last_duration lines = None.
Proof.
  induction lines as [|l lines IH]; intros H; simpl; [reflexivity|].
  rewrite IH by (intros l' Hl'; apply H; now right).
  specialize (H l (or_introl eq_refl)).
  destruct (classify l) as [[]|]; try reflexivity.
  now contradiction (H hours minutes seconds).
Qed.

(** C6: a line taken by the duration branch sets the file duration to
    hours * 3600 + minutes * 60 + seconds, the three numbers being the
    values of its fields; after the loop the file duration is the total of
    the last such line. *)
Theorem total_duration_last_wins :
  (forall st line m gh gm gs s,
     search SILENCE_START_RE line = None ->
     search SILENCE_END_RE line = None ->
     search TOTAL_DURATION_RE line = Some m ->
     group m "hours" = Some gh -> group m "minutes" = Some gm ->
     group m "seconds" = Some gs -> parse_float gs = Some s ->
     classify line = Ok (TotalDurationMarker (digits_val gh) (digits_val gm) s) /\
     step st line
     = Ok (Scan (chunk_starts st) (chunk_ends st)
             (Some (float_of_Z (digits_val gh * 3600 + digits_val gm * 60) + s)%float)))
  /\ (forall lines st,
        scan_lines scan0 lines = Ok st -> end_time st = last_duration lines)
  /\ (forall l1 d l2 h m s st,
        classify d = Ok (TotalDurationMarker h m s) ->
        (forall l, In l l2 ->
           forall h' m' s', classify l <> Ok (TotalDurationMarker h' m' s')) ->
        scan_lines scan0 (l1 ++ d :: l2) = Ok st ->
        end_time st = Some (float_of_Z (h * 3600 + m * 60) + s)%float).
Proof.
  split; [|split].
  - intros st line m gh gm gs s Hs He Hd Hgh Hgm Hgs Hfs.
    assert (classify line
            = Ok (TotalDurationMarker (digits_val gh) (digits_val gm) s)) as Hk.
    { destruct (total_duration_match _ _ Hd)
        as (gh' & gm' & gs' & h & mi & Hgh' & Hh & Hgm' & Hmi & _).
      rewrite Hgh in Hgh'. injection Hgh' as <-.
      rewrite Hgm in Hgm'. injection Hgm' as <-.
      pose proof (py_int_val _ _ Hh) as Eh. pose proof (py_int_val _ _ Hmi) as Em.
      subst h mi. unfold classify. rewrite Hs, He, Hd.
      rewrite (py_group_Some _ _ _ Hgh), bind_Ok_l, Hh, bind_Ok_l,
        (py_group_Some _ _ _ Hgm), bind_Ok_l, Hmi, bind_Ok_l,
        (py_group_Some _ _ _ Hgs), bind_Ok_l, (py_float_Some _ _ Hfs).
      reflexivity. }
    split; [exact Hk|]. now rewrite step_classify, Hk.
  - intros lines st H. rewrite (scan_lines_end_time _ _ _ H).
    now destruct (last_duration lines).
  - intros l1 d l2 h m s st Hd Hl2 H.
    rewrite (scan_lines_end_time _ _ _ H).
    now rewrite (last_duration_app l1 d l2 h m s Hd (last_duration_None _ Hl2)).
Qed.

Lemma total_duration_last_wins_witness :
  step scan0 (str "frame=1 size=22kB time=01:02:03.50 bitrate=N/A speed= 920x")
  = Ok (Scan [] [] (Some 3723.5%float)) /\
  end_time (Scan [2%float] [] (Some 3723.5%float)) = last_duration two_durations.
Proof.
  split.
  - refine (proj2 (proj1 total_duration_last_wins scan0
              (str "frame=1 size=22kB time=01:02:03.50 bitrate=N/A speed= 920x")
              [("seconds", str "03.50"); ("minutes", str "02"); ("hours", str "01")]
              (str "01") (str "02") (str "03.50") 3.5%float _ _ _ _ _ _ _));
      vm_compute; reflexivity.
  - apply (proj1 (proj2 total_duration_last_wins) two_durations).
    vm_compute. reflexivity.
Defined.

(** ** The orchestrator *)

Lemma handler_body_request w bucket key tol dur :
  handler_body w (request bucket key tol dur)
  = with_ (s3_object w bucket (PyStr key)) (fun input_file =>
      '(_, noise_detected) ← has_audio w input_file tol dur;
      mret noise_detected).
Proof. reflexivity. Qed.

(** The analysis itself does not touch the temporary directory. *)
Lemma has_audio_files w input_file tol dur fs :
  (has_audio w input_file tol dur fs).2 = fs.
Proof.
  unfold has_audio, detect_silence, lift, raise, mbind, M_bind, mret, M_ret.
  destruct (ffmpeg w input_file dur tol) as [[returncode output]|e]; simpl;
    [|reflexivity].
  destruct (returncode =? 0); reflexivity.
Qed.

(** Under [with s3_object(...)], a body that raises leaves the directory as
    the body left it: [os.remove] is not reached. *)
Lemma with_s3_object_raise {B} w bucket key (body : text -> M B) fs e fs' :
  s3_download w bucket key (tmp_name key) = None ->
  body (tmp_name key) ({[tmp_name key]} ∪ fs) = (Raise e, fs') ->
  with_ (s3_object w bucket (PyStr key)) body fs = (Raise e, fs').
Proof.
  intros Hd Hb. unfold with_, s3_object. simpl. now rewrite Hd, Hb.
Qed.

Lemma with_s3_object_return {B} w bucket key (body : text -> M B) fs b fs' :
  s3_download w bucket key (tmp_name key) = None ->
  body (tmp_name key) ({[tmp_name key]} ∪ fs) = (Ok b, fs') ->
  tmp_name key ∈ fs' ->
  with_ (s3_object w bucket (PyStr key)) body fs = (Ok b, fs' ∖ {[tmp_name key]}).
Proof.
  intros Hd Hb Hin. unfold with_, s3_object. simpl. rewrite Hd, Hb.
  unfold os_remove. now rewrite decide_True.
Qed.

Lemma lambda_handler_eq w event fs :
  lambda_handler w event fs =
  match handler_body w event fs with
  | (Ok noise_detected, fs') =>
      (Ok (Response 200
             (<["success" := PyBool true]>
                (<["noise_detected" := PyBool noise_detected]> resp0))), fs')
  | (Raise e, fs') =>
      (Ok (Response 200 (<["error" := PyStr (describe e)]> resp0)), fs')
  end.
Proof.
  unfold lambda_handler, try_except, mbind, M_bind, mret, M_ret.
  now destruct (handler_body w event fs) as [[nd|e] fs'].
Qed.

Lemma resp0_lookups :
  resp0 !! "success" = Some (PyBool false) /\
  resp0 !! "noise_detected" = Some (PyBool false) /\
  resp0 !! "errors" = Some PyNone /\ resp0 !! "error" = None.
Proof. repeat split; reflexivity. Qed.

(** C10: the handler returns, with status code 200, for every request and
    every behaviour of storage and tool.  When the body of the [try] raises
    an exception e, the response keeps success and noise_detected false,
    holds under the key error the text of type(e), a colon, a space and
    str(e), and still holds None under the key errors; otherwise success is
    true and noise_detected is the flag of the analysis. *)
Theorem lambda_handler_always_200 w event fs :
  exists resp fs',
    lambda_handler w event fs = (Ok (Response 200 resp), fs') /\
    match handler_body w event fs with
    | (Raise e, fs1) =>
        fs' = fs1 /\
        resp !! "success" = Some (PyBool false) /\
        resp !! "noise_detected" = Some (PyBool false) /\
        resp !! "error" = Some (PyStr (str (exn_type e) ++ str ": " ++ exn_msg e)) /\
        resp !! "errors" = Some PyNone
    | (Ok noise_detected, fs1) =>
        fs' = fs1 /\
        resp !! "success" = Some (PyBool true) /\
        resp !! "noise_detected" = Some (PyBool noise_detected) /\
        resp !! "error" = None /\
        resp !! "errors" = Some PyNone
    end.
Proof.
  rewrite lambda_handler_eq.
  destruct (handler_body w event fs) as [[nd|e] fs1]; eexists _, _;
    (split; [reflexivity|]); repeat split; reflexivity.
Qed.

Lemma lambda_handler_always_200_witness :
  (exists resp,
     lambda_handler working_tool (PyDict []) ∅ = (Ok (Response 200 resp), ∅) /\
     resp !! "success" = Some (PyBool false) /\
     resp !! "noise_detected" = Some (PyBool false) /\
     resp !! "error" = Some (PyStr (str "<class 'KeyError'>: 'body'")) /\
     resp !! "errors" = Some PyNone) /\
  (exists resp,
     lambda_handler failing_tool clip_request ∅
     = (Ok (Response 200 resp), {[str "/tmp/clip.mp4"]}) /\
     resp !! "success" = Some (PyBool false) /\
     resp !! "noise_detected" = Some (PyBool false) /\
     resp !! "error"
     = Some (PyStr (str "<class 'lambda_function.FFmpegError'>: FFMPEG Error. Check logs")) /\
     resp !! "errors" = Some PyNone) /\
  (exists resp,
     lambda_handler working_tool clip_request ∅ = (Ok (Response 200 resp), ∅) /\
     resp !! "success" = Some (PyBool true) /\
     resp !! "noise_detected" = Some (PyBool true) /\
     resp !! "error" = None /\
     resp !! "errors" = Some PyNone).
Proof.
  split; [|split].
  - destruct (lambda_handler_always_200 working_tool (PyDict []) ∅)
      as (resp & fs' & Heq & H).
    change (handler_body working_tool (PyDict []) ∅)
      with (@Raise bool (KeyError (str "'body'")), (∅ : gset text)) in H.
    destruct H as (-> & H). exists resp. exact (conj Heq H).
  - destruct (lambda_handler_always_200 failing_tool clip_request ∅)
      as (resp & fs' & Heq & H).
    assert (handler_body failing_tool clip_request ∅
            = (Raise (FFmpegError (str "FFMPEG Error. Check logs")),
               {[str "/tmp/clip.mp4"]})) as Hb by (vm_compute; reflexivity).
    rewrite Hb in H. destruct H as (-> & H). exists resp. exact (conj Heq H).
  - destruct (lambda_handler_always_200 working_tool clip_request ∅)
      as (resp & fs' & Heq & H).
    assert (handler_body working_tool clip_request ∅ = (Ok true, ∅)) as Hb
      by (vm_compute; reflexivity).
    rewrite Hb in H. destruct H as (-> & H). exists resp. exact (conj Heq H).
Defined.

(** C8 (what the code does): when the object has been downloaded and the
    analysis raises, the handler returns with the temporary file still in
    the directory; it is removed only when the analysis returns. *)
Theorem temp_file_left_when_analysis_fails w bucket key tol dur fs :
  s3_download w bucket key (tmp_name key) = None ->
  (forall e,
     (has_audio w (tmp_name key) tol dur ({[tmp_name key]} ∪ fs)).1 = Raise e ->
     exists resp,
       lambda_handler w (request bucket key tol dur) fs
       = (Ok (Response 200 resp), {[tmp_name key]} ∪ fs) /\
       resp !! "error" = Some (PyStr (describe e)) /\
       tmp_name key ∈ ({[tmp_name key]} ∪ fs : gset text)) /\
  (forall r,
     (has_audio w (tmp_name key) tol dur ({[tmp_name key]} ∪ fs)).1 = Ok r ->
     exists resp,
       lambda_handler w (request bucket key tol dur) fs
       = (Ok (Response 200 resp), ({[tmp_name key]} ∪ fs) ∖ {[tmp_name key]}) /\
       resp !! "error" = None /\
       tmp_name key ∉ (({[tmp_name key]} ∪ fs) ∖ {[tmp_name key]} : gset text)).
Proof.
  intros Hd.
  pose proof (has_audio_files w (tmp_name key) tol dur ({[tmp_name key]} ∪ fs)) as Hfs.
  destruct (has_audio w (tmp_name key) tol dur ({[tmp_name key]} ∪ fs))
    as [r0 fs1] eqn:Ha.
  simpl in Hfs. subst fs1. split.
  - intros e He. simpl in He. subst r0.
    rewrite lambda_handler_eq, handler_body_request.
    erewrite with_s3_object_raise; [|exact Hd|].
    + eexists. split; [reflexivity|]. split; [reflexivity|].
      apply elem_of_union. left. now apply elem_of_singleton.
    + unfold mbind, M_bind. now rewrite Ha.
  - intros [ivs nd] Hr. simpl in Hr. subst r0.
    rewrite lambda_handler_eq, handler_body_request.
    erewrite with_s3_object_return; [|exact Hd| |].
    + eexists. split; [reflexivity|]. split; [reflexivity|].
      intros [_ Hout]%elem_of_difference. apply Hout. now apply elem_of_singleton.
    + unfold mbind, M_bind. rewrite Ha. reflexivity.
    + apply elem_of_union. left. now apply elem_of_singleton.
Qed.

Lemma temp_file_left_when_analysis_fails_witness :
  exists resp,
    lambda_handler failing_tool clip_request ∅
    = (Ok (Response 200 resp), {[str "/tmp/clip.mp4"]} ∪ ∅) /\
    resp !! "error"
    = Some (PyStr (str "<class 'lambda_function.FFmpegError'>: FFMPEG Error. Check logs")) /\
    str "/tmp/clip.mp4" ∈ ({[str "/tmp/clip.mp4"]} ∪ ∅ : gset text).
Proof.
  exact (proj1 (temp_file_left_when_analysis_fails failing_tool
                  (PyStr (str "media")) (str "uploads/clip.mp4")
                  (PyInt (-36)) (PyFloat 0.5%float) ∅ eq_refl)
           (FFmpegError (str "FFMPEG Error. Check logs")) eq_refl).
Defined.

Lemma temp_file_removed_example :
  exists resp,
    lambda_handler working_tool clip_request ∅
    = (Ok (Response 200 resp), ({[str "/tmp/clip.mp4"]} ∪ ∅) ∖ {[str "/tmp/clip.mp4"]}) /\
    resp !! "success" = Some (PyBool true) /\
    resp !! "noise_detected" = Some (PyBool true).
Proof.
  eexists. split; [|split]; [vm_compute; reflexivity|reflexivity|reflexivity].
Qed.

(** * Further properties *)

(** ** Splitting into lines *)

Lemma no_linebreak_rev t : no_linebreak t = true -> no_linebreak (rev t) = true.
Proof.
  unfold no_linebreak. induction t as [|x t IH]; simpl; [reflexivity|].
  intros H. apply andb_prop in H as [Hx Ht].
  rewrite forallb_app, (IH Ht). simpl. now rewrite Hx.
Qed.

Lemma splitlines_from_clean n : forall s cur,
  (length s <= n)%nat -> no_linebreak cur = true ->
  forall line, In line (splitlines_from cur s) -> no_linebreak line = true.
Proof.
  induction n as [|n IH]; intros s cur Hlen Hcur line Hin.
  - destruct s; [|simpl in Hlen; lia]. simpl in Hin.
    pose proof (no_linebreak_rev _ Hcur) as Hrev.
    destruct cur; [contradiction|]. destruct Hin as [<-|[]]. exact Hrev.
  - destruct s as [|c s'].
    + apply (IH [] cur); [simpl; lia|assumption|assumption].
    + pose proof (no_linebreak_rev _ Hcur) as Hrev.
      simpl in Hlen. simpl in Hin. destruct (is_linebreak c) eqn:Hc.
      * destruct Hin as [<-|Hin]; [exact Hrev|].
        destruct s' as [|c2 s''].
        -- apply (IH [] []); [simpl; lia|reflexivity|exact Hin].
        -- destruct (char_eqb c CR && char_eqb c2 LF).
           ++ apply (IH s'' []); [simpl in Hlen; lia|reflexivity|exact Hin].
           ++ apply (IH (c2 :: s'') []); [lia|reflexivity|exact Hin].
      * apply (IH s' (c :: cur)); [lia| |exact Hin].
        unfold no_linebreak. simpl. rewrite Hc. exact Hcur.
Qed.

(** X1: no line of [splitlines] holds a line boundary; in particular none
    holds a newline. *)
Theorem splitlines_lines_clean output line :
  In line (splitlines output) -> no_linebreak line = true /\ ~ In LF line.
Proof.
  intros Hin.
  assert (no_linebreak line = true) as H
    by (apply (splitlines_from_clean (length output) output []); auto).
  split; [exact H|]. intros HLF.
  unfold no_linebreak in H. rewrite forallb_forall in H.
  specialize (H _ HLF). discriminate.
Qed.

Lemma splitlines_lines_clean_witness :
  no_linebreak (str "second line") = true /\ ~ In LF (str "second line").
Proof.
  apply (splitlines_lines_clean
           (str "first line" ++ [CR; LF] ++ str "second line" ++ NL)).
  vm_compute. auto.
Defined.

Lemma splitlines_from_line a : forall cur b,
  no_linebreak a = true ->
  splitlines_from cur (a ++ LF :: b) = (rev cur ++ a) :: splitlines_from [] b /\
  splitlines_from cur (a ++ CR :: LF :: b) = (rev cur ++ a) :: splitlines_from [] b /\
  splitlines_from cur a
  = match rev cur ++ a with [] => [] | _ => [rev cur ++ a] end.
Proof.
  induction a as [|c a IH]; intros cur b Ha.
  - rewrite app_nil_r. simpl. repeat split.
    + now destruct b.
    + destruct cur as [|x cur]; [reflexivity|].
      destruct (rev (x :: cur)) eqn:E; [|reflexivity].
      apply (f_equal (@length char)) in E. rewrite length_rev in E. discriminate.
  - unfold no_linebreak in Ha. simpl in Ha. apply andb_prop in Ha as [Hc Ha].
    apply negb_true_iff in Hc.
    destruct (IH (c :: cur) b Ha) as (H1 & H2 & H3).
    simpl. rewrite Hc. simpl in H1, H2, H3.
    rewrite <- !app_assoc in H1, H2, H3. simpl in H1, H2, H3.
    now rewrite H1, H2, H3.
Qed.

(** X2: a first line without line boundaries is split off at a newline, or
    at a carriage return and newline taken as one boundary; a text without
    line boundaries is one line, and the empty text has no line. *)
Theorem splitlines_first_line a b :
  no_linebreak a = true ->
  splitlines (a ++ LF :: b) = a :: splitlines b /\
  splitlines (a ++ CR :: LF :: b) = a :: splitlines b /\
  splitlines a = match a with [] => [] | _ => [a] end.
Proof. intros Ha. exact (splitlines_from_line a [] b Ha). Qed.

Lemma splitlines_first_line_witness :
  splitlines (str "size=N/A" ++ LF :: str "x" ++ [CR]) = str "size=N/A" :: splitlines (str "x" ++ [CR]) /\
  splitlines (str "size=N/A" ++ CR :: LF :: str "x" ++ [CR]) = str "size=N/A" :: splitlines (str "x" ++ [CR]) /\
  splitlines (str "size=N/A") = [str "size=N/A"].
Proof. exact (splitlines_first_line (str "size=N/A") (str "x" ++ [CR]) eq_refl). Defined.

Lemma splitlines_from_cons c s' cur :
  splitlines_from cur (c :: s') =
  if is_linebreak c then
    rev cur ::
      match s' with
      | c2 :: s'' =>
          if char_eqb c CR && char_eqb c2 LF
          then splitlines_from [] s''
          else splitlines_from [] s'
      | [] => splitlines_from [] s'
      end
  else splitlines_from (c :: cur) s'.
Proof. reflexivity. Qed.

Lemma splitlines_from_trailing_newline n : forall s cur,
  (length s <= n)%nat ->
  exists extra, (extra = [] \/ extra = [[]]) /\
    splitlines_from cur (s ++ [LF]) = splitlines_from cur s ++ extra.
Proof.
  induction n as [|n IH]; intros s cur Hlen.
  - destruct s; [|simpl in Hlen; lia]. simpl.
    destruct cur as [|x cur].
    + exists [[]]. auto.
    + exists []. auto.
  - destruct s as [|c s']; [apply (IH [] cur); simpl; lia|].
    simpl in Hlen.
    change ((c :: s') ++ [LF]) with (c :: (s' ++ [LF])).
    rewrite !splitlines_from_cons. destruct (is_linebreak c) eqn:Hc.
    + destruct s' as [|c2 s''].
      * change ([] ++ [LF]) with [LF]. unfold char_eqb at 2.
        rewrite N.eqb_refl, andb_true_r.
        destruct (char_eqb c CR); simpl.
        -- exists []. auto.
        -- exists [[]]. auto.
      * change ((c2 :: s'') ++ [LF]) with (c2 :: (s'' ++ [LF])).
        cbn iota. destruct (char_eqb c CR && char_eqb c2 LF).
        -- destruct (IH s'' [] ltac:(simpl in Hlen; lia)) as (extra & He & ->).
           exists extra. auto.
        -- destruct (IH (c2 :: s'') [] ltac:(lia)) as (extra & He & Heq).
           change ((c2 :: s'') ++ [LF]) with (c2 :: (s'' ++ [LF])) in Heq.
           rewrite Heq. exists extra. auto.
    + destruct (IH s' (c :: cur) ltac:(lia)) as (extra & He & ->).
      exists extra. auto.
Qed.

(** X3: one newline added at the end of the diagnostic text does not change
    what the parser returns, be it a result or an exception. *)
Theorem parse_trailing_newline output : parse (output ++ [LF]) = parse output.
Proof.
  unfold parse, splitlines.
  destruct (splitlines_from_trailing_newline (length output) output []
              (Nat.le_refl _)) as (extra & [-> | ->] & ->).
  - now rewrite app_nil_r.
  - rewrite scan_lines_app.
    destruct (scan_lines scan0 (splitlines_from [] output)); reflexivity.
Qed.

(** ** What the three patterns accept *)

Lemma py_group_Ok m name t : py_group m name = Ok t -> group m name = Some t.
Proof. unfold py_group. destruct (group m name); [now intros [= ->]|discriminate]. Qed.

Lemma py_float_Ok t x : py_float t = Ok x -> parse_float t = Some x.
Proof. unfold py_float. destruct (parse_float t); [now intros [= ->]|discriminate]. Qed.

Lemma classify_start_inv line t :
  classify line = Ok (SilenceStart t) ->
  exists m g, search SILENCE_START_RE line = Some m /\
    group m "start" = Some g /\ parse_float g = Some t.
Proof.
  unfold classify. destruct (search SILENCE_START_RE line) as [m|].
  - intros H. apply bind_Ok in H as (g & Hg & H).
    apply bind_Ok in H as (x & Hx & [= <-]).
    exists m, g. auto using py_group_Ok, py_float_Ok.
  - destruct (search SILENCE_END_RE line) as [m|].
    + intros H. apply bind_Ok in H as (g & _ & H).
      apply bind_Ok in H as (x & _ & H). discriminate.
    + destruct (search TOTAL_DURATION_RE line) as [m|]; [|discriminate].
      intros H. apply bind_Ok in H as (gh & _ & H). apply bind_Ok in H as (h & _ & H).
      apply bind_Ok in H as (gm & _ & H). apply bind_Ok in H as (mi & _ & H).
      apply bind_Ok in H as (gs & _ & H). apply bind_Ok in H as (x & _ & H).
      discriminate.
Qed.

Lemma classify_end_inv line t :
  classify line = Ok (SilenceEnd t) ->
  search SILENCE_START_RE line = None /\
  exists m g, search SILENCE_END_RE line = Some m /\
    group m "end" = Some g /\ parse_float g = Some t.
Proof.
  unfold classify. destruct (search SILENCE_START_RE line) as [m|].
  - intros H. apply bind_Ok in H as (g & _ & H).
    apply bind_Ok in H as (x & _ & H). discriminate.
  - split; [reflexivity|]. destruct (search SILENCE_END_RE line) as [m|].
    + apply bind_Ok in H as (g & Hg & H).
      apply bind_Ok in H as (x & Hx & [= <-]).
      exists m, g. auto using py_group_Ok, py_float_Ok.
    + destruct (search TOTAL_DURATION_RE line) as [m|]; [|discriminate].
      apply bind_Ok in H as (gh & _ & H). apply bind_Ok in H as (h & _ & H).
      apply bind_Ok in H as (gm & _ & H). apply bind_Ok in H as (mi & _ & H).
      apply bind_Ok in H as (gs & _ & H). apply bind_Ok in H as (x & _ & H).
      discriminate.
Qed.

Lemma classify_duration_inv line h mi s :
  classify line = Ok (TotalDurationMarker h mi s) ->
  search SILENCE_START_RE line = None /\ search SILENCE_END_RE line = None /\
  exists m gh gm gs, search TOTAL_DURATION_RE line = Some m /\
    group m "hours" = Some gh /\ py_int gh = Ok h /\
    group m "minutes" = Some gm /\ py_int gm = Ok mi /\
    group m "seconds" = Some gs /\ parse_float gs = Some s.
Proof.
  unfold classify. destruct (search SILENCE_START_RE line) as [m|].
  - intros H. apply bind_Ok in H as (g & _ & H).
    apply bind_Ok in H as (x & _ & H). discriminate.
  - split; [reflexivity|]. destruct (search SILENCE_END_RE line) as [m|].
    + apply bind_Ok in H as (g & _ & H).
      apply bind_Ok in H as (x & _ & H). discriminate.
    + split; [reflexivity|].
      destruct (search TOTAL_DURATION_RE line) as [m|]; [|discriminate].
      apply bind_Ok in H as (gh & Hgh & H). apply bind_Ok in H as (h' & Hh & H).
      apply bind_Ok in H as (gm & Hgm & H). apply bind_Ok in H as (mi' & Hmi & H).
      apply bind_Ok in H as (gs & Hgs & H). apply bind_Ok in H as (x & Hx & H).
      injection H as <- <- <-.
      exists m, gh, gm, gs. auto 10 using py_group_Ok, py_float_Ok.
Qed.

(** X4: a line taken as a silence start, and free of newlines, ends in a
    space, the token silence_start:, a space and an unsigned decimal
    number, and the time recorded is the value of that number. *)
Theorem silence_start_line_shape line t :
  classify line = Ok (SilenceStart t) -> ~ In LF line ->
  exists pre num,
    line = pre ++ str " silence_start: " ++ num /\
    is_number num = true /\ parse_float num = Some t.
Proof.
  intros Hk HLF. apply classify_start_inv in Hk as (m & g & Hs & Hg & Hf).
  apply search_inv in Hs as (pre & s & -> & Hm).
  apply silence_start_here in Hm as (num & tail & -> & Hn & Htail & ->).
  injection Hg as <-.
  destruct Htail as [-> | ->].
  - exists pre, num. now rewrite app_nil_r.
  - exfalso. apply HLF. repeat (apply in_or_app; right). now left.
Qed.

Lemma silence_start_line_shape_witness :
  exists pre num,
    str "[silencedetect @ 0x5581] silence_start: 12.75"
    = pre ++ str " silence_start: " ++ num /\
    is_number num = true /\ parse_float num = Some 12.75%float.
Proof.
  apply silence_start_line_shape.
  - vm_compute. reflexivity.
  - vm_compute. intuition discriminate.
Defined.

Lemma app_last_in {A} (a b l : list A) x :
  a ++ [x] = b ++ l -> l <> [] -> In x l.
Proof.
  intros Heq Hl. destruct (exists_last Hl) as (l' & y & ->).
  rewrite app_assoc in Heq. apply app_inj_tail in Heq as [_ ->].
  apply in_or_app. right. now left.
Qed.

Lemma is_number_head t :
  is_number t = true -> exists d r, t = d :: r /\ is_digit d = true.
Proof.
  unfold is_number. intros H. apply andb_prop in H as [Hn _].
  destruct t as [|d r]; [discriminate|]. simpl in Hn.
  destruct (is_digit d) eqn:E; [eauto|discriminate].
Qed.

Lemma number_tail_no_space t tail :
  is_number t = true -> tail = [] \/ tail = [LF] -> ~ In 32%N (t ++ tail).
Proof.
  intros Ht Htail Hin. apply in_app_or in Hin as [Hin|Hin].
  - apply is_number_chars in Ht. rewrite forallb_forall in Ht.
    specialize (Ht _ Hin). discriminate.
  - destruct Htail as [-> | ->]; [contradiction|].
    destruct Hin as [Hin|[]]. discriminate.
Qed.

(** X5: a silence-start line whose time carries a sign, as the detection
    tool prints for a silence that begins before time zero, is not matched
    by the silence-start pattern. *)
Theorem silence_start_signed_skipped pre sign num :
  sign = 45%N \/ sign = 43%N -> is_number num = true ->
  search SILENCE_START_RE (pre ++ str " silence_start: " ++ sign :: num) = None.
Proof.
  intros Hsign Hnum.
  destruct (search SILENCE_START_RE _) as [m|] eqn:E; [exfalso|reflexivity].
  apply search_inv in E as (pre' & s & Heq & Hm).
  apply silence_start_here in Hm as (t & tail & -> & Ht & Htail & _).
  pose proof (number_tail_no_space t tail Ht Htail) as Hns.
  assert (is_digit sign = false) as Hsd by (destruct Hsign as [-> | ->]; reflexivity).
  assert (~ In 32%N (sign :: num)) as Hnsn.
  { intros [Hin|Hin]; [destruct Hsign; subst; discriminate|].
    apply is_number_chars in Hnum. rewrite forallb_forall in Hnum.
    specialize (Hnum _ Hin). discriminate. }
  assert (t ++ tail = sign :: num -> False) as Hsame.
  { intros Hst. destruct (is_number_head _ Ht) as (d & r & -> & Hd).
    injection Hst as -> _. congruence. }
  rewrite !app_assoc in Heq. rewrite <- (app_assoc _ t tail) in Heq.
  apply app_eq_app in Heq as (l & [[Hl Hr]|[Hl Hr]]).
  - destruct l as [|x l]; [now apply Hsame|].
    apply Hns. rewrite Hr. apply in_or_app. left.
    change (str " silence_start: ") with (str " silence_start:" ++ [32%N]) in Hl.
    rewrite app_assoc in Hl. now apply (app_last_in _ _ _ _ Hl).
  - destruct l as [|x l]; [now apply Hsame|].
    apply Hnsn. rewrite Hr. apply in_or_app. left.
    change (str " silence_start: ") with (str " silence_start:" ++ [32%N]) in Hl.
    rewrite app_assoc in Hl. now apply (app_last_in _ _ _ _ Hl).
Qed.

Lemma silence_start_signed_skipped_witness :
  search SILENCE_START_RE
    (str "[silencedetect @ 0x5581]" ++ str " silence_start: " ++ 45%N :: str "0.00133333")
  = None.
Proof. apply silence_start_signed_skipped; [now left|reflexivity]. Defined.

Lemma is_number_split t :
  is_number t = true ->
  exists a b, t = a ++ b /\ forallb is_digit a = true /\ (1 <= length a)%nat /\
    (b = [] \/ exists fp, b = 46%N :: fp /\ forallb is_digit fp = true).
Proof.
  unfold is_number. intros H. apply andb_prop in H as [Hn H].
  destruct (run_firstn is_digit t (run is_digit t) (Nat.le_refl _)) as [Ha Hla].
  exists (firstn (run is_digit t) t), (skipn (run is_digit t) t).
  rewrite firstn_skipn. repeat split; auto.
  - destruct (firstn (run is_digit t) t); [discriminate|simpl; lia].
  - destruct (skipn (run is_digit t) t) as [|c fp]; [now left|right].
    apply andb_prop in H as [Hc Hfp]. apply char_eqb_eq in Hc as ->. eauto.
Qed.

Lemma run_stop cls a c r :
  forallb cls a = true -> cls c = false -> run cls (a ++ c :: r) = length a.
Proof.
  intros Ha Hc. rewrite run_all by assumption. simpl. rewrite Hc. lia.
Qed.

(** Greedy matching takes the whole number when what follows is neither a
    digit nor a dot. *)
Lemma number_then g re num c r o cl m :
  is_number num = true -> is_digit c = false -> is_dot c = false ->
  match_here re (c :: r) ((g, num ++ c :: r) :: o) ((g, num) :: cl) = Some m ->
  match_here (GOpen g :: Rep is_digit 1 None :: Rep is_dot 0 (Some 1%nat)
              :: Rep is_digit 0 None :: GClose g :: re) (num ++ c :: r) o cl
  = Some m.
Proof.
  intros Hn Hcd Hcp Hre.
  destruct (is_number_split _ Hn) as (a & b & -> & Ha & Hla & Hb).
  rewrite match_here_GOpen, match_here_Rep. cbn [cap].
  assert (match_here (GClose g :: re) (c :: r)
            ((g, (a ++ b) ++ c :: r) :: o) cl = Some m) as Hclose.
  { rewrite match_here_GClose.
    now rewrite (firstn_prefix (a ++ b) (c :: r)). }
  assert (run is_digit ((a ++ b) ++ c :: r) = length a) as ->.
  { rewrite <- app_assoc. destruct Hb as [-> | (fp & -> & _)].
    - now apply run_stop.
    - now apply run_stop. }
  apply backtrack_first; [assumption|].
  rewrite <- app_assoc, drop_app_length, match_here_Rep.
  destruct Hb as [-> | (fp & -> & Hfp)].
  - assert (cap (Some 1%nat) (run is_dot ([] ++ c :: r)) = 0%nat) as ->
      by (simpl; now rewrite Hcp).
    apply backtrack_first; [lia|].
    change (skipn 0 ([] ++ c :: r)) with (c :: r).
    rewrite match_here_Rep. cbn [cap run]. rewrite Hcd.
    apply backtrack_first; [lia|].
    change (skipn 0 (c :: r)) with (c :: r).
    rewrite app_nil_r in Hclose. exact Hclose.
  - change (cap (Some 1%nat) (run is_dot ((46%N :: fp) ++ c :: r))) with 1%nat.
    apply backtrack_first; [lia|].
    change (skipn 1 ((46%N :: fp) ++ c :: r)) with (fp ++ c :: r).
    rewrite match_here_Rep. cbn [cap]. rewrite (run_stop _ _ _ _ Hfp Hcd).
    apply backtrack_first; [lia|].
    rewrite drop_app_length. rewrite <- app_assoc in Hclose. exact Hclose.
Qed.

Lemma silence_end_here s m :
  match_here SILENCE_END_RE s [] [] = Some m ->
  exists t post, s = str " silence_end: " ++ t ++ 32%N :: post /\
    is_number t = true /\ m = [("end", t)].
Proof.
  unfold SILENCE_END_RE, lit. intros H.
  apply match_here_lit_inv in H as (s1 & -> & H).
  change ([GOpen "end"; Rep is_digit 1 None; Rep is_dot 0 (Some 1%nat);
           Rep is_digit 0 None; GClose "end"] ++ map Chr (str " "))
    with (GOpen "end" :: Rep is_digit 1 None :: Rep is_dot 0 (Some 1%nat)
          :: Rep is_digit 0 None :: GClose "end" :: map Chr (str " ") ++ []) in H.
  apply number_inv in H as (t & s2 & -> & Ht & H).
  apply match_here_lit_inv in H as (s3 & -> & H).
  injection H as <-. now exists t, s3.
Qed.

Lemma silence_end_at num post :
  is_number num = true ->
  match_here SILENCE_END_RE (str " silence_end: " ++ num ++ 32%N :: post) [] []
  = Some [("end", num)].
Proof.
  intros Hn. unfold SILENCE_END_RE, lit. rewrite match_here_lit_app.
  change ([GOpen "end"; Rep is_digit 1 None; Rep is_dot 0 (Some 1%nat);
           Rep is_digit 0 None; GClose "end"] ++ map Chr (str " "))
    with (GOpen "end" :: Rep is_digit 1 None :: Rep is_dot 0 (Some 1%nat)
          :: Rep is_digit 0 None :: GClose "end" :: [Chr 32%N]).
  apply number_then; auto.
Qed.

Lemma In_firstn_le {A} (l : list A) x : forall k n,
  (k <= n)%nat -> In x (firstn k l) -> In x (firstn n l).
Proof.
  induction l as [|y l IH]; intros k n Hle Hin.
  - now rewrite firstn_nil in Hin.
  - destruct k; [contradiction|]. destruct n; [lia|].
    simpl in *. destruct Hin as [->|Hin]; [now left|right].
    apply (IH k n); [lia|assumption].
Qed.

Lemma In_firstn {A} (l : list A) x n : In x (firstn n l) -> In x l.
Proof.
  intros H. rewrite <- (firstn_all l).
  destruct (Nat.le_ge_cases n (length l)).
  - now apply (In_firstn_le l x n (length l)).
  - rewrite firstn_all. now rewrite firstn_all2 in H.
Qed.

(** The silence-end pattern cannot match inside a prefix without a colon:
    the colon of its literal would fall in the prefix or before the colon
    of the occurrence that follows. *)
Lemma silence_end_not_earlier x pre rest :
  ~ In 58%N (x :: pre) ->
  match_here SILENCE_END_RE (x :: pre ++ str " silence_end: " ++ rest) [] []
  = None.
Proof.
  intros Hcolon.
  destruct (match_here _ _ _ _) as [m|] eqn:E; [exfalso|reflexivity].
  apply silence_end_here in E as (t & post & Heq & _).
  assert (In 58%N (firstn 13 (x :: pre ++ str " silence_end: " ++ rest))) as Hin.
  { rewrite Heq.
    change (firstn 13 (str " silence_end: " ++ t ++ 32%N :: post))
      with (str " silence_end" ++ [58%N]).
    apply in_or_app. right. now left. }
  change (firstn 13 (x :: pre ++ str " silence_end: " ++ rest))
    with (x :: firstn 12 (pre ++ str " silence_end: " ++ rest)) in Hin.
  rewrite firstn_app in Hin.
  destruct Hin as [Hin|Hin]; [apply Hcolon; now left|].
  apply in_app_or in Hin as [Hin|Hin].
  - apply Hcolon. right. now apply In_firstn in Hin.
  - apply (In_firstn_le _ _ _ 12) in Hin; [|lia].
    change (firstn 12 (str " silence_end: " ++ rest))
      with (str " silence_end") in Hin.
    simpl in Hin. intuition discriminate.
Qed.

Lemma search_silence_end pre num post :
  ~ In 58%N pre -> is_number num = true ->
  search SILENCE_END_RE (pre ++ str " silence_end: " ++ num ++ 32%N :: post)
  = Some [("end", num)].
Proof.
  intros Hcolon Hn. induction pre as [|x pre IH].
  - apply search_here. now apply silence_end_at.
  - change ((x :: pre) ++ str " silence_end: " ++ num ++ 32%N :: post)
      with (x :: pre ++ str " silence_end: " ++ num ++ 32%N :: post).
    rewrite search_skip by now apply silence_end_not_earlier.
    apply IH. intros Hin. apply Hcolon. now right.
Qed.

(** X6: a line made of a prefix without a colon, a space, the token
    silence_end:, a space, an unsigned decimal number, a space and any
    further text is a silence-end event whose time is that number, unless
    the silence-start pattern matches the line; the loop appends the time
    to the starts list. *)
Theorem silence_end_recognized pre num post st :
  ~ In 58%N pre -> is_number num = true ->
  search SILENCE_START_RE (pre ++ str " silence_end: " ++ num ++ 32%N :: post)
  = None ->
  exists t,
    parse_float num = Some t /\
    classify (pre ++ str " silence_end: " ++ num ++ 32%N :: post)
    = Ok (SilenceEnd t) /\
    step st (pre ++ str " silence_end: " ++ num ++ 32%N :: post)
    = Ok (Scan (chunk_starts st ++ [t]) (chunk_ends st) (end_time st)).
Proof.
  intros Hcolon Hn Hs. destruct (is_number_float _ Hn) as [t Ht]. exists t.
  assert (classify (pre ++ str " silence_end: " ++ num ++ 32%N :: post)
          = Ok (SilenceEnd t)) as Hk.
  { unfold classify. rewrite Hs, (search_silence_end pre num post Hcolon Hn).
    change (py_group [("end", num)] "end") with (Ok num).
    now rewrite bind_Ok_l, (py_float_Some _ _ Ht). }
  repeat split; auto. now rewrite step_classify, Hk.
Qed.

Lemma silence_end_recognized_witness :
  exists t,
    parse_float (str "4.5") = Some t /\
    classify (str "[silencedetect @ 0x5581]" ++ str " silence_end: " ++ str "4.5"
              ++ 32%N :: str "| silence_duration: 1.5")
    = Ok (SilenceEnd t) /\
    step scan0 (str "[silencedetect @ 0x5581]" ++ str " silence_end: " ++ str "4.5"
                ++ 32%N :: str "| silence_duration: 1.5")
    = Ok (Scan [t] [] None).
Proof.
  apply (silence_end_recognized (str "[silencedetect @ 0x5581]") (str "4.5")
           (str "| silence_duration: 1.5") scan0).
  - vm_compute. intuition discriminate.
  - reflexivity.
  - vm_compute. reflexivity.
Defined.

(** X7: a line taken as a silence end is not matched by the silence-start
    pattern and holds a space, the token silence_end:, a space, an unsigned
    decimal number and a space; the time recorded is the value of that
    number. *)
Theorem silence_end_line_shape line t :
  classify line = Ok (SilenceEnd t) ->
  search SILENCE_START_RE line = None /\
  exists pre num post,
    line = pre ++ str " silence_end: " ++ num ++ 32%N :: post /\
    is_number num = true /\ parse_float num = Some t.
Proof.
  intros Hk. apply classify_end_inv in Hk as (Hs & m & g & He & Hg & Hf).
  split; [exact Hs|].
  apply search_inv in He as (pre & s & -> & Hm).
  apply silence_end_here in Hm as (num & post & -> & Hn & ->).
  injection Hg as <-. now exists pre, num, post.
Qed.

Lemma silence_end_line_shape_witness :
  search SILENCE_START_RE
    (str "[silencedetect @ 0x5581] silence_end: 4.5 | silence_duration: 1.5") = None /\
  exists pre num post,
    str "[silencedetect @ 0x5581] silence_end: 4.5 | silence_duration: 1.5"
    = pre ++ str " silence_end: " ++ num ++ 32%N :: post /\
    is_number num = true /\ parse_float num = Some 4.5%float.
Proof. apply silence_end_line_shape. vm_compute. reflexivity. Defined.

Lemma total_duration_here s m :
  match_here TOTAL_DURATION_RE s [] [] = Some m ->
  exists tok gh gm gs post,
    s = str "size=" ++ tok ++ str " time=" ++ gh ++ str ":" ++ gm ++ str ":"
        ++ gs ++ str " bitrate=" ++ post /\
    (forallb not_space tok = true /\ (1 <= length tok)%nat) /\
    (forallb is_digit gh = true /\ length gh = 2%nat) /\
    (forallb is_digit gm = true /\ length gm = 2%nat) /\
    (forallb is_digit_or_dot gs = true /\ length gs = 5%nat) /\
    m = [("seconds", gs); ("minutes", gm); ("hours", gh)].
Proof.
  unfold TOTAL_DURATION_RE, lit. intros H.
  apply match_here_lit_inv in H as (s1 & -> & H).
  apply (match_here_Rep_inv not_space 1 None) in H as (tok & s2 & -> & Htok & Hlt & _ & H).
  apply match_here_lit_inv in H as (s3 & -> & H).
  change (match_here (GOpen "hours" :: Rep is_digit 2 (Some 2%nat) :: GClose "hours"
            :: map Chr (str ":") ++
               [GOpen "minutes"; Rep is_digit 2 (Some 2%nat); GClose "minutes"] ++
               map Chr (str ":") ++
               [GOpen "seconds"; Rep is_digit_or_dot 5 (Some 5%nat); GClose "seconds"] ++
               map Chr (str " bitrate=")) s3 [] [] = Some m) in H.
  rewrite match_here_GOpen in H.
  apply match_here_Rep_inv in H as (gh & s4 & -> & Hgh & Hlh & Huh & H).
  rewrite match_here_GClose, firstn_prefix in H.
  apply match_here_lit_inv in H as (s5 & -> & H).
  change (match_here (GOpen "minutes" :: Rep is_digit 2 (Some 2%nat) :: GClose "minutes"
            :: map Chr (str ":") ++
               [GOpen "seconds"; Rep is_digit_or_dot 5 (Some 5%nat); GClose "seconds"] ++
               map Chr (str " bitrate=")) s5
            [("hours", gh ++ str ":" ++ s5)] [("hours", gh)] = Some m) in H.
  rewrite match_here_GOpen in H.
  apply match_here_Rep_inv in H as (gm & s6 & -> & Hgm & Hlm & Hum & H).
  rewrite match_here_GClose, firstn_prefix in H.
  apply match_here_lit_inv in H as (s7 & -> & H).
  change (match_here (GOpen "seconds" :: Rep is_digit_or_dot 5 (Some 5%nat)
            :: GClose "seconds" :: map Chr (str " bitrate=") ++ []) s7
            [("minutes", gm ++ str ":" ++ s7); ("hours", gh ++ str ":" ++ gm ++ str ":" ++ s7)]
            [("minutes", gm); ("hours", gh)] = Some m) in H.
  rewrite match_here_GOpen in H.
  apply match_here_Rep_inv in H as (gs & s8 & -> & Hgs & Hls & Hus & H).
  rewrite match_here_GClose, firstn_prefix in H.
  apply match_here_lit_inv in H as (s9 & -> & H).
  injection H as <-.
  specialize (Huh _ eq_refl). specialize (Hum _ eq_refl). specialize (Hus _ eq_refl).
  exists tok, gh, gm, gs, s9.
  repeat split; auto; lia.
Qed.

Lemma digit_val_range c : is_digit c = true -> 0 <= digit_val c <= 9.
Proof.
  unfold is_digit, digit_val. intros H. apply andb_prop in H as [H1 H2].
  apply N.leb_le in H1, H2. lia.
Qed.

Lemma two_digits_range t :
  forallb is_digit t = true -> length t = 2%nat -> 0 <= digits_val t <= 99.
Proof.
  intros H Hl. destruct t as [|a [|b [|? ?]]]; try discriminate.
  simpl in H. rewrite andb_true_r in H. apply andb_prop in H as [Ha Hb].
  apply digit_val_range in Ha, Hb. unfold digits_val. simpl. lia.
Qed.

(** X8: a line taken as a total-duration line is matched by neither
    silence pattern and holds size=, a non-empty token without spaces,
    time=, two digits, a colon, two digits, a colon, five characters with
    at most one dot, and bitrate=; the hours and the minutes are the values
    of the two-digit fields, hence between 0 and 99 (minutes above 59 are
    not refused), and the seconds are the value of the last field. *)
Theorem total_duration_line_shape line h mi s :
  classify line = Ok (TotalDurationMarker h mi s) ->
  search SILENCE_START_RE line = None /\ search SILENCE_END_RE line = None /\
  0 <= h <= 99 /\ 0 <= mi <= 99 /\
  exists pre tok gh gm gs post,
    line = pre ++ str "size=" ++ tok ++ str " time=" ++ gh ++ str ":" ++ gm
           ++ str ":" ++ gs ++ str " bitrate=" ++ post /\
    forallb not_space tok = true /\ (1 <= length tok)%nat /\
    forallb is_digit gh = true /\ length gh = 2%nat /\ h = digits_val gh /\
    forallb is_digit gm = true /\ length gm = 2%nat /\ mi = digits_val gm /\
    forallb is_digit_or_dot gs = true /\ length gs = 5%nat /\
    (dots gs <= 1)%nat /\ parse_float gs = Some s.
Proof.
  intros Hk.
  apply classify_duration_inv in Hk
    as (Hs & He & m & gh & gm & gs & Hd & Hgh & Hh & Hgm & Hmi & Hgs & Hf).
  apply search_inv in Hd as (pre & s' & -> & Hm).
  apply total_duration_here in Hm
    as (tok & gh' & gm' & gs' & post & -> & [Htok Hlt] & [Hdh Hlh] & [Hdm Hlm]
        & [Hds Hls] & ->).
  injection Hgh as <-. injection Hgm as <-. injection Hgs as <-.
  apply py_int_val in Hh, Hmi. subst h mi.
  assert (dots gs' <= 1)%nat as Hdots.
  { destruct (Nat.le_gt_cases (dots gs') 1) as [|Hgt]; [assumption|].
    apply (seconds_field_rejected gs' Hds) in Hgt; [congruence|lia]. }
  split; [exact Hs|]. split; [exact He|].
  split; [now apply two_digits_range|]. split; [now apply two_digits_range|].
  exists pre, tok, gh', gm', gs', post. repeat split; auto.
Qed.

Lemma total_duration_line_shape_witness :
  0 <= 0 <= 99 /\ 0 <= 75 <= 99 /\
  classify (str "frame=1 size=22kB time=00:75:03.50 bitrate=N/A speed= 920x")
  = Ok (TotalDurationMarker 0 75 3.5%float).
Proof.
  assert (classify (str "frame=1 size=22kB time=00:75:03.50 bitrate=N/A speed= 920x")
          = Ok (TotalDurationMarker 0 75 3.5%float)) as Hk
    by (vm_compute; reflexivity).
  destruct (total_duration_line_shape _ _ _ _ Hk) as (_ & _ & Hh & Hm & _).
  exact (conj Hh (conj Hm Hk)).
Defined.

(** ** What the loop records *)

Lemma scan_lines_lists lines : forall st st',
  scan_lines st lines = Ok st' ->
  chunk_ends st' = chunk_ends st ++ silence_start_times lines /\
  chunk_starts st' =
  match chunk_starts st with
  | [] => if leading_start lines
          then 0%float :: silence_end_times lines
          else silence_end_times lines
  | _ => chunk_starts st ++ silence_end_times lines
  end.
Proof.
  induction lines as [|line rest IH]; intros st st' H.
  - injection H as <-. simpl. rewrite !app_nil_r. now destruct (chunk_starts st).
  - apply scan_lines_cons in H as (k & Hk & H).
    destruct (IH _ _ H) as [He Hs]. simpl. rewrite Hk, He, Hs.
    destruct k as [t|t|h m s|]; simpl.
    + rewrite <- app_assoc. split; [reflexivity|].
      now destruct (chunk_starts st).
    + split; [reflexivity|].
      destruct (chunk_starts st) as [|x starts]; [reflexivity|].
      simpl. now rewrite <- app_assoc.
    + auto.
    + auto.
Qed.

(** X9: the result of the parser is a function of the events alone: the
    ends list is the sequence of the silence-start times in line order, the
    starts list is the sequence of the silence-end times in line order,
    preceded by 0.0 when the first silence event is a silence start, and
    the file duration is that of the last total-duration line. *)
Theorem parse_by_events output r :
  parse output = Ok r ->
  exists st,
    scan_lines scan0 (splitlines output) = Ok st /\
    chunk_ends st = silence_start_times (splitlines output) /\
    chunk_starts st =
      (if leading_start (splitlines output)
       then 0%float :: silence_end_times (splitlines output)
       else silence_end_times (splitlines output)) /\
    end_time st = last_duration (splitlines output) /\
    r = finish st.
Proof.
  unfold parse. intros H. apply bind_Ok in H as (st & Hscan & [= <-]).
  exists st. destruct (scan_lines_lists _ _ _ Hscan) as [He Hs].
  repeat split; auto.
  rewrite (scan_lines_end_time _ _ _ Hscan).
  now destruct (last_duration (splitlines output)).
Qed.

Lemma parse_by_events_witness :
  exists st,
    scan_lines scan0 (splitlines (open_chunk_text "00:01:10.50")) = Ok st /\
    chunk_ends st = silence_start_times (splitlines (open_chunk_text "00:01:10.50")) /\
    chunk_starts st =
      (if leading_start (splitlines (open_chunk_text "00:01:10.50"))
       then 0%float :: silence_end_times (splitlines (open_chunk_text "00:01:10.50"))
       else silence_end_times (splitlines (open_chunk_text "00:01:10.50"))) /\
    end_time st = last_duration (splitlines (open_chunk_text "00:01:10.50")) /\
    ([(0%float, 1%float); (2%float, 70.5%float)], true) = finish st.
Proof.
  apply parse_by_events. vm_compute. reflexivity.
Defined.

Lemma combine_nonempty {A B} (l : list A) (k : list B) :
  l <> [] -> k <> [] -> combine l k <> [].
Proof. destruct l, k; simpl; congruence. Qed.

(** X10: the interval list returned is empty exactly when no line is a
    silence start, whatever the silence-end and duration lines; the flag
    is then false. *)
Theorem no_interval_iff_no_silence_start output ivs flag :
  parse output = Ok (ivs, flag) ->
  (ivs = [] <-> silence_start_times (splitlines output) = []) /\
  (ivs = [] -> flag = false).
Proof.
  intros H. unfold parse in H. apply bind_Ok in H as (st & Hscan & [= Hfin]).
  destruct (scan_lines_lists _ _ _ Hscan) as [He _]. simpl in He. rewrite <- He.
  pose proof (scan_lines_starts_before_ends _ _ _ scan0_starts_before_ends Hscan)
    as Hinv.
  unfold finish, close_chunks in Hfin.
  destruct (chunk_ends st) as [|e ends] eqn:Hends.
  - rewrite andb_false_r in Hfin. rewrite combine_nil in Hfin.
    injection Hfin as <- <-. tauto.
  - assert (chunk_starts st <> []) as Hne
      by (intros E; apply Hinv in E; congruence).
    destruct (chunk_starts st) as [|s starts]; [congruence|].
    change (length (s :: starts) =? 0)%nat with false in Hfin. cbn iota in Hfin.
    destruct ((length (e :: ends) <? length (s :: starts))%nat
              && (0 <? length (e :: ends))%nat);
      simpl in Hfin; injection Hfin as <- <-;
      (split; [split; discriminate|discriminate]).
Qed.

Lemma no_interval_iff_no_silence_start_witness :
  ((@nil (float * float)) = [] <->
   silence_start_times (splitlines three_silence_ends) = []) /\
  ((@nil (float * float)) = [] -> false = false).
Proof.
  apply (no_interval_iff_no_silence_start three_silence_ends).
  vm_compute. reflexivity.
Defined.

(** X11: a line that matches no pattern can be deleted anywhere without
    changing what the loop computes, and a first line of that kind can be
    dropped from the diagnostic text. *)
Theorem unrecognized_lines_ignored :
  (forall st l1 u l2,
     classify u = Ok Unrecognized ->
     scan_lines st (l1 ++ u :: l2) = scan_lines st (l1 ++ l2)) /\
  (forall u rest,
     no_linebreak u = true -> classify u = Ok Unrecognized ->
     parse (u ++ LF :: rest) = parse rest).
Proof.
  assert (forall st u l2, classify u = Ok Unrecognized ->
            scan_lines st (u :: l2) = scan_lines st l2) as Hdrop.
  { intros st u l2 Hu. simpl. now rewrite step_classify, Hu. }
  split.
  - intros st l1 u l2 Hu. rewrite !scan_lines_app.
    destruct (scan_lines st l1) as [st1|e]; [|reflexivity].
    rewrite !bind_Ok_l. now apply Hdrop.
  - intros u rest Hclean Hu. unfold parse.
    destruct (splitlines_from_line u [] rest Hclean) as [Hsplit _].
    unfold splitlines. simpl in Hsplit. rewrite Hsplit. now rewrite Hdrop.
Qed.

Lemma unrecognized_lines_ignored_witness :
  parse (str "ffmpeg version 4.2.2 Copyright (c) 2000-2019" ++ LF
         :: open_chunk_text "00:01:10.50")
  = parse (open_chunk_text "00:01:10.50").
Proof.
  apply (proj2 unrecognized_lines_ignored); vm_compute; reflexivity.
Defined.

(** ** Exceptions of the parser *)

Lemma classify_raise_inv line e :
  classify line = Raise e ->
  search SILENCE_START_RE line = None /\ search SILENCE_END_RE line = None /\
  exists m gs,
    search TOTAL_DURATION_RE line = Some m /\ group m "seconds" = Some gs /\
    parse_float gs = None /\
    e = ValueError (str "could not convert string to float: '" ++ gs ++ str "'").
Proof.
  unfold classify.
  destruct (search SILENCE_START_RE line) as [m|] eqn:Hs.
  - destruct (silence_start_match _ _ Hs) as (t & Hg & Ht).
    destruct (py_float_number _ Ht) as [x Hx].
    rewrite (py_group_Some _ _ _ Hg), bind_Ok_l, Hx, bind_Ok_l. discriminate.
  - destruct (search SILENCE_END_RE line) as [m|] eqn:He.
    + destruct (silence_end_match _ _ He) as (t & Hg & Ht).
      destruct (py_float_number _ Ht) as [x Hx].
      rewrite (py_group_Some _ _ _ Hg), bind_Ok_l, Hx, bind_Ok_l. discriminate.
    + destruct (search TOTAL_DURATION_RE line) as [m|] eqn:Hd; [|discriminate].
      destruct (total_duration_match _ _ Hd)
        as (gh & gm & gs & h & mi & Hgh & Hh & Hgm & Hmi & Hgs).
      rewrite (py_group_Some _ _ _ Hgh), bind_Ok_l, Hh, bind_Ok_l,
        (py_group_Some _ _ _ Hgm), bind_Ok_l, Hmi, bind_Ok_l,
        (py_group_Some _ _ _ Hgs), bind_Ok_l.
      unfold py_float. destruct (parse_float gs) eqn:Hf; [discriminate|].
      simpl. intros [= <-]. repeat split. exists m, gs. auto.
Qed.

Lemma scan_lines_raise_inv lines : forall st e,
  scan_lines st lines = Raise e ->
  exists l1 line l2,
    lines = l1 ++ line :: l2 /\
    forallb (fun l => negb (malformed_duration l)) l1 = true /\
    classify line = Raise e.
Proof.
  induction lines as [|line rest IH]; intros st e H; [discriminate|].
  simpl in H. rewrite step_classify in H.
  destruct (classify line) as [k|e'] eqn:Hk.
  - rewrite !bind_Ok_l in H. destruct (IH _ _ H) as (l1 & l & l2 & -> & Hl1 & Hl).
    exists (line :: l1), l, l2. repeat split; auto. simpl. rewrite Hl1.
    destruct (malformed_duration line) eqn:Hm; [|reflexivity].
    destruct (classify_malformed _ Hm) as [msg Hmsg]. congruence.
  - simpl in H. injection H as <-. exists [], line, rest. auto.
Qed.

(** X12: every exception of the parser is the ValueError of float() on the
    seconds field of the first line that reaches the duration branch with a
    malformed field; that field has five characters among the digits and
    the dot, two or more of them dots, and the message quotes it. *)
Theorem parse_exception_shape output e :
  parse output = Raise e ->
  exists l1 line l2 m gs,
    splitlines output = l1 ++ line :: l2 /\
    forallb (fun l => negb (malformed_duration l)) l1 = true /\
    search SILENCE_START_RE line = None /\ search SILENCE_END_RE line = None /\
    search TOTAL_DURATION_RE line = Some m /\ group m "seconds" = Some gs /\
    length gs = 5%nat /\ forallb is_digit_or_dot gs = true /\ (2 <= dots gs)%nat /\
    e = ValueError (str "could not convert string to float: '" ++ gs ++ str "'").
Proof.
  unfold parse. intros H.
  destruct (scan_lines scan0 (splitlines output)) as [st|e'] eqn:Hscan;
    [discriminate|].
  simpl in H. injection H as ->.
  apply scan_lines_raise_inv in Hscan as (l1 & line & l2 & Hsplit & Hl1 & Hk).
  apply classify_raise_inv in Hk as (Hs & He & m & gs & Hd & Hgs & Hf & ->).
  exists l1, line, l2, m, gs.
  destruct (search_inv _ _ _ Hd) as (pre & s' & _ & Hm).
  apply total_duration_here in Hm
    as (tok & gh & gm & gs' & post & _ & _ & _ & _ & [Hds Hls] & ->).
  injection Hgs as <-.
  repeat split; auto.
  apply (seconds_field_rejected gs' Hds); [lia|exact Hf].
Qed.

Lemma parse_exception_shape_witness :
  exists l1 line l2 m gs,
    splitlines (open_chunk_text "00:00:1.2.3") = l1 ++ line :: l2 /\
    forallb (fun l => negb (malformed_duration l)) l1 = true /\
    search SILENCE_START_RE line = None /\ search SILENCE_END_RE line = None /\
    search TOTAL_DURATION_RE line = Some m /\ group m "seconds" = Some gs /\
    length gs = 5%nat /\ forallb is_digit_or_dot gs = true /\ (2 <= dots gs)%nat /\
    ValueError (str "could not convert string to float: '1.2.3'")
    = ValueError (str "could not convert string to float: '" ++ gs ++ str "'").
Proof.
  apply parse_exception_shape. vm_compute. reflexivity.
Defined.

(** ** Outcomes of the handler *)

Lemma handler_body_fields w event fs :
  handler_body w event fs =
  match request_fields event with
  | Raise e => (Raise e, fs)
  | Ok (bucket_name, key_name, noise_tolerance, noise_duration) =>
      with_ (s3_object w bucket_name key_name) (fun input_file =>
        '(_, noise_detected) ← has_audio w input_file noise_tolerance noise_duration;
        mret noise_detected) fs
  end.
Proof.
  unfold handler_body, request_fields, lift, mbind, M_bind, result_bind.
  destruct (subscript event (str "body")) as [body|e]; [|reflexivity].
  destruct (subscript body (str "bucket_name")); [|reflexivity].
  destruct (subscript body (str "key_name")); [|reflexivity].
  destruct (subscript body (str "noise_tolerance")); [|reflexivity].
  destruct (subscript body (str "noise_duration")); reflexivity.
Qed.

Lemma lambda_handler_responses w event fs :
  lambda_handler w event fs =
  match handler_body w event fs with
  | (Ok noise_detected, fs') => (Ok (success_response noise_detected), fs')
  | (Raise e, fs') => (Ok (error_response e), fs')
  end.
Proof. apply lambda_handler_eq. Qed.

(** X13: when the request lacks the body or one of the four fields, the
    handler answers with the error of the first failing lookup and leaves
    the temporary directory as it was, whatever storage and tool would do;
    no default is substituted for a missing tolerance or duration. *)
Theorem missing_field_reported w event fs e :
  request_fields event = Raise e ->
  lambda_handler w event fs = (Ok (error_response e), fs).
Proof.
  intros H. now rewrite lambda_handler_responses, handler_body_fields, H.
Qed.

Lemma missing_field_reported_witness :
  lambda_handler working_tool
    (PyDict [(str "body",
              PyDict [(str "bucket_name", PyStr (str "media"));
                      (str "key_name", PyStr (str "uploads/clip.mp4"));
                      (str "noise_duration", PyFloat 0.5%float)])])
    {[str "/tmp/other.wav"]}
  = (Ok (error_response (KeyError (str "'noise_tolerance'"))),
     {[str "/tmp/other.wav"]}).
Proof. apply missing_field_reported. reflexivity. Defined.

(** X14: when the download fails, or the key is not a string, the handler
    answers with that error, the temporary directory is left as it was and
    the outcome does not depend on the detection tool. *)
Theorem download_failure_reported w event fs bucket key_name tol dur :
  request_fields event = Ok (bucket, key_name, tol, dur) ->
  (forall key e,
     key_name = PyStr key -> s3_download w bucket key (tmp_name key) = Some e ->
     lambda_handler w event fs = (Ok (error_response e), fs)) /\
  ((forall key, key_name <> PyStr key) ->
   exists msg,
     lambda_handler w event fs = (Ok (error_response (AttributeError msg)), fs)).
Proof.
  intros Hf. split.
  - intros key e -> Hd.
    rewrite lambda_handler_responses, handler_body_fields, Hf.
    unfold with_, s3_object. simpl. now rewrite Hd.
  - intros Hk.
    rewrite lambda_handler_responses, handler_body_fields, Hf.
    unfold with_, s3_object. simpl.
    destruct key_name; try (eexists; reflexivity). now contradiction (Hk s).
Qed.

Lemma download_failure_reported_witness :
  lambda_handler no_such_key clip_request ∅
  = (Ok (error_response
           (Exn "<class 'botocore.exceptions.ClientError'>"
              (str "An error occurred (404) when calling the HeadObject operation: Not Found"))),
     ∅).
Proof.
  apply (proj1 (download_failure_reported no_such_key clip_request ∅
                  (PyStr (str "media")) (PyStr (str "uploads/clip.mp4"))
                  (PyInt (-36)) (PyFloat 0.5%float) eq_refl)
           (str "uploads/clip.mp4")); reflexivity.
Defined.

Lemma has_audio_eq w input_file tol dur fs :
  has_audio w input_file tol dur fs =
  (match ffmpeg w input_file dur tol with
   | Raise e => Raise e
   | Ok (returncode, output) =>
       if negb (returncode =? 0)
       then Raise (FFmpegError (str "FFMPEG Error. Check logs"))
       else parse output
   end, fs).
Proof.
  unfold has_audio, detect_silence, lift, raise, mbind, M_bind, mret, M_ret.
  destruct (ffmpeg w input_file dur tol) as [[returncode output]|e]; simpl;
    [|reflexivity].
  destruct (returncode =? 0); reflexivity.
Qed.

Lemma remove_added (f : text) (fs : gset text) : ({[f]} ∪ fs) ∖ {[f]} = fs ∖ {[f]}.
Proof.
  apply set_eq. intros x.
  rewrite !elem_of_difference, elem_of_union, elem_of_singleton. tauto.
Qed.

Lemma added_elem (f : text) (fs : gset text) : f ∈ ({[f]} ∪ fs : gset text).
Proof. apply elem_of_union. left. now apply elem_of_singleton. Qed.

(** X15: when the request is complete, the download succeeds, the tool
    exits with status 0 and its text parses, the handler answers success
    with the flag of the parser as noise_detected (the intervals are not
    returned), and no file of the temporary name is left, even one that was
    there before. *)
Theorem analysis_success w event fs bucket key tol dur output ivs flag :
  request_fields event = Ok (bucket, PyStr key, tol, dur) ->
  s3_download w bucket key (tmp_name key) = None ->
  ffmpeg w (tmp_name key) dur tol = Ok (0, output) ->
  parse output = Ok (ivs, flag) ->
  lambda_handler w event fs
  = (Ok (success_response flag), fs ∖ {[tmp_name key]}).
Proof.
  intros Hf Hd Ht Hp.
  rewrite lambda_handler_responses, handler_body_fields, Hf.
  erewrite with_s3_object_return; [|exact Hd| |apply added_elem].
  - now rewrite remove_added.
  - unfold mbind, M_bind. rewrite has_audio_eq, Ht. simpl. rewrite Hp. reflexivity.
Qed.

Lemma analysis_success_witness :
  lambda_handler working_tool clip_request {[str "/tmp/clip.mp4"; str "/tmp/other.wav"]}
  = (Ok (success_response true),
     {[str "/tmp/clip.mp4"; str "/tmp/other.wav"]} ∖ {[str "/tmp/clip.mp4"]}).
Proof.
  apply (analysis_success working_tool clip_request _ (PyStr (str "media"))
           (str "uploads/clip.mp4") (PyInt (-36)) (PyFloat 0.5%float)
           (open_chunk_text "00:01:10.50")
           [(0%float, 1%float); (2%float, 70.5%float)] true);
    reflexivity.
Defined.

(** X16: when the object has been downloaded, a non-zero exit status of the
    tool is reported as FFmpegError whatever the diagnostic text, an
    exception of the parser or of starting the tool is reported as it is,
    and in each case the temporary file is left in the directory. *)
Theorem analysis_failures w event fs bucket key tol dur :
  request_fields event = Ok (bucket, PyStr key, tol, dur) ->
  s3_download w bucket key (tmp_name key) = None ->
  (forall returncode output,
     ffmpeg w (tmp_name key) dur tol = Ok (returncode, output) ->
     returncode <> 0 ->
     lambda_handler w event fs
     = (Ok (error_response (FFmpegError (str "FFMPEG Error. Check logs"))),
        {[tmp_name key]} ∪ fs)) /\
  (forall output e,
     ffmpeg w (tmp_name key) dur tol = Ok (0, output) ->
     parse output = Raise e ->
     lambda_handler w event fs = (Ok (error_response e), {[tmp_name key]} ∪ fs)) /\
  (forall e,
     ffmpeg w (tmp_name key) dur tol = Raise e ->
     lambda_handler w event fs = (Ok (error_response e), {[tmp_name key]} ∪ fs)).
Proof.
  intros Hf Hd.
  assert (forall e,
            (has_audio w (tmp_name key) tol dur ({[tmp_name key]} ∪ fs)).1 = Raise e ->
            lambda_handler w event fs
            = (Ok (error_response e), {[tmp_name key]} ∪ fs)) as Hraise.
  { intros e He. rewrite has_audio_eq in He. simpl in He.
    rewrite lambda_handler_responses, handler_body_fields, Hf.
    erewrite with_s3_object_raise; [reflexivity|exact Hd|].
    unfold mbind, M_bind. rewrite has_audio_eq, He. reflexivity. }
  split; [|split].
  - intros returncode output Ht Hrc. apply Hraise.
    rewrite has_audio_eq, Ht. simpl.
    destruct (Z.eqb_spec returncode 0); [contradiction|reflexivity].
  - intros output e Ht Hp. apply Hraise.
    rewrite has_audio_eq, Ht. simpl. exact Hp.
  - intros e Ht. apply Hraise. rewrite has_audio_eq, Ht. reflexivity.
Qed.

Lemma analysis_failures_witness :
  lambda_handler failing_tool clip_request ∅
  = (Ok (error_response (FFmpegError (str "FFMPEG Error. Check logs"))),
     {[str "/tmp/clip.mp4"]} ∪ ∅) /\
  lambda_handler garbled_tool clip_request ∅
  = (Ok (error_response
           (ValueError (str "could not convert string to float: '1.2.3'"))),
     {[str "/tmp/clip.mp4"]} ∪ ∅).
Proof.
  split.
  - apply (proj1 (analysis_failures failing_tool clip_request ∅
                    (PyStr (str "media")) (str "uploads/clip.mp4")
                    (PyInt (-36)) (PyFloat 0.5%float) eq_refl eq_refl)
             1 (str "clip.mp4: Invalid data found when processing input"));
      [reflexivity|discriminate].
  - apply (proj1 (proj2 (analysis_failures garbled_tool clip_request ∅
                    (PyStr (str "media")) (str "uploads/clip.mp4")
                    (PyInt (-36)) (PyFloat 0.5%float) eq_refl eq_refl))
             (open_chunk_text "00:00:1.2.3"));
      [reflexivity|vm_compute; reflexivity].
Defined.

(** X17: the handler adds or removes no file other than the temporary file
    of the request: for every request and every behaviour of storage and
    tool, a file with another name is in the directory afterwards exactly
    when it was there before. *)
Theorem handler_touches_only_temp_file w event fs f :
  (forall bucket key tol dur,
     request_fields event = Ok (bucket, PyStr key, tol, dur) -> f <> tmp_name key) ->
  (f ∈ (lambda_handler w event fs).2 <-> f ∈ fs).
Proof.
  intros Hf. rewrite lambda_handler_responses, handler_body_fields.
  destruct (request_fields event) as [[[[bucket key_name] tol] dur]|e] eqn:Hr;
    [|reflexivity].
  destruct key_name as [| | | |key| |]; try reflexivity.
  specialize (Hf bucket key tol dur eq_refl).
  unfold with_, s3_object. simpl.
  destruct (s3_download w bucket key (tmp_name key)); [reflexivity|].
  unfold mbind, M_bind. rewrite has_audio_eq.
  destruct (match ffmpeg w (tmp_name key) dur tol with
            | Ok (returncode, output) =>
                if negb (returncode =? 0)
                then Raise (FFmpegError (str "FFMPEG Error. Check logs"))
                else parse output
            | Raise e => Raise e
            end) as [[ivs flag]|e]; simpl.
  - unfold os_remove. rewrite decide_True by apply added_elem. simpl.
    rewrite elem_of_difference, elem_of_union, !elem_of_singleton. tauto.
  - rewrite elem_of_union, elem_of_singleton. tauto.
Qed.

Lemma handler_touches_only_temp_file_witness :
  str "/tmp/other.wav"
    ∈ (lambda_handler working_tool clip_request
         {[str "/tmp/clip.mp4"; str "/tmp/other.wav"]}).2
  <-> str "/tmp/other.wav" ∈ ({[str "/tmp/clip.mp4"; str "/tmp/other.wav"]} : gset text).
Proof.
  apply handler_touches_only_temp_file.
  intros bucket key tol dur [= _ <- _ _]. vm_compute. discriminate.
Defined.

(** ** The temporary file name *)

Lemma last_segment_plain base : forall cur,
  ~ In 47%N base -> last_segment cur base = rev cur ++ base.
Proof.
  induction base as [|c base IH]; intros cur Hns; simpl.
  - now rewrite app_nil_r.
  - destruct (char_eqb c 47%N) eqn:E.
    + apply char_eqb_eq in E as ->. exfalso. apply Hns. now left.
    + rewrite IH by (intros Hin; apply Hns; now right).
      simpl. now rewrite <- app_assoc.
Qed.

Lemma last_segment_after_slash dir base : forall cur,
  ~ In 47%N base -> last_segment cur (dir ++ 47%N :: base) = base.
Proof.
  induction dir as [|c dir IH]; intros cur Hns; simpl.
  - now rewrite last_segment_plain.
  - destruct (char_eqb c 47%N); now apply IH.
Qed.

(** X18: the temporary file name is /tmp/ followed by what comes after the
    last slash of the key, or by the whole key when it has no slash; keys
    that differ only before their last slash share one temporary file. *)
Theorem tmp_name_last_component dir base :
  ~ In 47%N base ->
  tmp_name (dir ++ 47%N :: base) = str "/tmp/" ++ base /\
  tmp_name base = str "/tmp/" ++ base /\
  forall dir', tmp_name (dir' ++ 47%N :: base) = tmp_name (dir ++ 47%N :: base).
Proof.
  intros Hns. unfold tmp_name. repeat split.
  - now rewrite last_segment_after_slash.
  - now rewrite last_segment_plain.
  - intros dir'. now rewrite !last_segment_after_slash.
Qed.

Lemma tmp_name_last_component_witness :
  tmp_name (str "uploads/2020" ++ 47%N :: str "clip.mp4") = str "/tmp/" ++ str "clip.mp4" /\
  tmp_name (str "clip.mp4") = str "/tmp/" ++ str "clip.mp4" /\
  forall dir', tmp_name (dir' ++ 47%N :: str "clip.mp4")
               = tmp_name (str "uploads/2020" ++ 47%N :: str "clip.mp4").
Proof.
  apply tmp_name_last_component. vm_compute. intuition discriminate.
Defined.

(** ** Counting intervals *)

Lemma close_chunks_closed st :
  ~ (0 < length (chunk_ends st) < length (chunk_starts st))%nat ->
  close_chunks st = (seeded_starts st, chunk_ends st, false).
Proof.
  intros Hn. rewrite seeded_starts_eq. unfold close_chunks.
  destruct (chunk_starts st) as [|s starts]; simpl length in *.
  - change (0 =? 0)%nat with true. cbn iota.
    destruct (chunk_ends st); reflexivity.
  - change (S (length starts) =? 0)%nat with false. cbn iota.
    destruct (Nat.ltb_spec (length (chunk_ends st)) (S (length starts)));
      destruct (Nat.ltb_spec 0 (length (chunk_ends st))); try reflexivity.
    lia.
Qed.

(** X19: with s silence-start lines and e starts (the silence-end lines,
    and one more when the first silence event is a silence start), the flag
    returned is true exactly when 0 < s < e; the parser then returns s + 1
    intervals, and min e s intervals otherwise. *)
Theorem interval_count output ivs flag :
  parse output = Ok (ivs, flag) ->
  let s := length (silence_start_times (splitlines output)) in
  let e := length (if leading_start (splitlines output)
                   then 0%float :: silence_end_times (splitlines output)
                   else silence_end_times (splitlines output)) in
  (flag = true <-> (0 < s < e)%nat) /\
  length ivs = if flag then S s else Nat.min e s.
Proof.
  intros H. unfold parse in H. apply bind_Ok in H as (st & Hscan & [= Hfin]).
  destruct (scan_lines_lists _ _ _ Hscan) as [He Hs]. simpl in He, Hs.
  rewrite <- He, <- Hs. cbv zeta.
  pose proof (scan_lines_starts_before_ends _ _ _ scan0_starts_before_ends Hscan)
    as Hinv.
  destruct (Nat.lt_ge_cases 0 (length (chunk_ends st))) as [Hpos|Hzero];
    [destruct (Nat.lt_ge_cases (length (chunk_ends st)) (length (chunk_starts st)))
       as [Hlt|Hge]|].
  - rewrite (finish_close _ _ _ _ (close_chunks_open st (conj Hpos Hlt))) in Hfin.
    injection Hfin as <- <-. split; [tauto|].
    rewrite length_combine, length_app. simpl. lia.
  - rewrite (finish_close _ _ _ _ (close_chunks_closed st ltac:(lia))) in Hfin.
    injection Hfin as <- <-. split; [split; [discriminate|lia]|].
    rewrite length_combine.
    destruct (seeded_starts_nonempty st) as [-> | [Hnil _]]; [reflexivity|].
    rewrite (Hinv Hnil) in Hpos. simpl in Hpos. lia.
  - rewrite (finish_close _ _ _ _ (close_chunks_closed st ltac:(lia))) in Hfin.
    injection Hfin as <- <-. split; [split; [discriminate|lia]|].
    rewrite length_combine. lia.
Qed.

Lemma interval_count_witness :
  (true = true <->
   (0 < length (silence_start_times (splitlines (open_chunk_text "00:01:10.50")))
      < length (if leading_start (splitlines (open_chunk_text "00:01:10.50"))
                then 0%float :: silence_end_times (splitlines (open_chunk_text "00:01:10.50"))
                else silence_end_times (splitlines (open_chunk_text "00:01:10.50"))))%nat) /\
  length [(0%float, 1%float); (2%float, 70.5%float)]
  = S (length (silence_start_times (splitlines (open_chunk_text "00:01:10.50")))).
Proof.
  apply (interval_count (open_chunk_text "00:01:10.50")
           [(0%float, 1%float); (2%float, 70.5%float)] true).
  vm_compute. reflexivity.
Defined.

Lemma leading_start_times lines :
  leading_start lines = true ->
  exists t rest, silence_start_times lines = t :: rest.
Proof.
  induction lines as [|line lines IH]; simpl; [discriminate|].
  destruct (classify line) as [[t|t|h m s|]|e]; eauto; discriminate.
Qed.

(** X20: when the first silence event of the text is a silence start, the
    first interval returned runs from 0.0 to the time of that event. *)
Theorem leading_silence_start_interval output ivs flag :
  parse output = Ok (ivs, flag) ->
  leading_start (splitlines output) = true ->
  exists t times rest,
    silence_start_times (splitlines output) = t :: times /\
    ivs = (0%float, t) :: rest.
Proof.
  intros H Hlead. unfold parse in H. apply bind_Ok in H as (st & Hscan & [= Hfin]).
  destruct (scan_lines_lists _ _ _ Hscan) as [He Hs]. simpl in He, Hs.
  rewrite Hlead in Hs.
  destruct (leading_start_times _ Hlead) as (t & times & Ht).
  rewrite Ht in He. exists t, times.
  unfold finish, close_chunks in Hfin. rewrite Hs, He in Hfin.
  simpl length in Hfin. change (S _ =? 0)%nat with false in Hfin. cbn iota in Hfin.
  destruct ((S (length times) <? S (length (silence_end_times (splitlines output))))%nat
            && (0 <? S (length times))%nat);
    simpl in Hfin; injection Hfin as <- _; eauto.
Qed.

Lemma leading_silence_start_interval_witness :
  exists t times rest,
    silence_start_times (splitlines (open_chunk_text "00:01:10.50")) = t :: times /\
    [(0%float, 1%float); (2%float, 70.5%float)] = (0%float, t) :: rest.
Proof.
  apply (leading_silence_start_interval (open_chunk_text "00:01:10.50") _ true);
    vm_compute; reflexivity.
Defined.
